(** * flet_carousel_slider: the Carousel control and its two event classes

    A shallow embedding of [src/flet_carousel_slider/flet_carousel_slider.py].

    Python objects are records, mutation is explicit state passing, and an
    exception is the [Raise] constructor of [result].  A Python [str] is a
    Rocq [string] whose characters are the code points 0..255; Python [int]
    is [Z]; Python [float] is the binary64 type of the kernel.  The
    interpreter's configurable limit on the number of digits of an
    integer-string conversion is not part of the model. *)

From Stdlib Require Import ZArith Floats Ascii String DecimalString DecimalZ.
From stdpp Require Import base option list strings gmap.

Local Open Scope string_scope.
Local Open Scope Z_scope.
Set Warnings "-inexact-float".

(** ** Exceptions *)

Inductive exn := ValueError | IndexError | AssertionError.

Inductive result (A : Type) :=
| Ok (a : A)
| Raise (e : exn).
Arguments Ok {A} a.
Arguments Raise {A} e.

Definition bind {A B} (r : result A) (k : A -> result B) : result B :=
  match r with
  | Ok a => k a
  | Raise e => Raise e
  end.

Notation "'let*' x ':=' r 'in' k" := (bind r (fun x => k))
  (at level 10, x name, r at level 100, k at level 200).

(** [try: body except E: handler], for a handler that cannot raise. *)
Definition try_except {A} (body : result A) (E : exn) (handler : A) : result A :=
  match body with
  | Ok a => Ok a
  | Raise e => match e, E with
               | ValueError, ValueError
               | IndexError, IndexError
               | AssertionError, AssertionError => Ok handler
               | _, _ => Raise e
               end
  end.

(** ** Python built-ins used by the source *)

Module Py.

Definition code (c : ascii) : N := N_of_ascii c.

Definition isdigit (c : ascii) : bool :=
  ((48 <=? code c) && (code c <=? 57))%N.

(** Value of a decimal digit character. *)
Definition digit_value (c : ascii) : Z := Z.of_N (code c) - 48.

(** White space skipped by [int()] and [float()]: the six ASCII blanks,
    and U+0085 and U+00A0, which the conversion rewrites to a blank. *)
Definition isspace (c : ascii) : bool :=
  (((9 <=? code c) && (code c <=? 13)) || (code c =? 32)
   || (code c =? 133) || (code c =? 160))%N.

(** [str.lower] on one character: A-Z, and the upper-case letters of
    Latin-1 (U+00C0..U+00DE without the multiplication sign). *)
Definition lower_char (c : ascii) : ascii :=
  if (((65 <=? code c) && (code c <=? 90))
      || ((192 <=? code c) && (code c <=? 222) && negb (code c =? 215)))%N
  then ascii_of_N (code c + 32) else c.

Fixpoint lower (s : string) : string :=
  match s with
  | EmptyString => EmptyString
  | String c s' => String (lower_char c) (lower s')
  end.

(** [s.split(sep)] for a separator of one character. *)
Fixpoint split (sep : ascii) (s : string) : list string :=
  match s with
  | EmptyString => [EmptyString]
  | String c s' =>
      if Ascii.eqb c sep then EmptyString :: split sep s'
      else match split sep s' with
           | seg :: segs => String c seg :: segs
           | [] => [String c EmptyString]
           end
  end.

(** [parts[i]] on a list: [IndexError] out of range (non-negative [i]). *)
Definition getitem {A} (parts : list A) (i : nat) : result A :=
  match parts !! i with
  | Some x => Ok x
  | None => Raise IndexError
  end.

(** [str(n)], also what an f-string writes for an [int]. *)
Definition str_of_int (n : Z) : string :=
  NilEmpty.string_of_int (Z.to_int n).

(** *** Numeric literals *)

Fixpoint skip (p : ascii -> bool) (l : list ascii) : list ascii :=
  match l with
  | c :: l' => if p c then skip p l' else l
  | [] => []
  end.

Fixpoint prefix_of (p : ascii -> bool) (l : list ascii) : list ascii :=
  match l with
  | c :: l' => if p c then c :: prefix_of p l' else []
  | [] => []
  end.

Definition lstrip (l : list ascii) : list ascii := skip isspace l.
Definition strip (l : list ascii) : list ascii := rev (lstrip (rev (lstrip l))).

(** Underscores of a numeric literal: each one must stand between two
    digits; they are dropped.  [prev] is the character before [l]. *)
Fixpoint drop_underscores (prev : option ascii) (l : list ascii) : option (list ascii) :=
  match l with
  | [] => Some []
  | c :: l' =>
      if Ascii.eqb c "_" then
        match prev, l' with
        | Some p, d :: _ =>
            if isdigit p && isdigit d then drop_underscores (Some c) l' else None
        | _, _ => None
        end
      else cons c <$> drop_underscores (Some c) l'
  end.

(** Leading sign: [(negative, rest)]. *)
Definition take_sign (l : list ascii) : bool * list ascii :=
  match l with
  | c :: l' =>
      if Ascii.eqb c "-" then (true, l')
      else if Ascii.eqb c "+" then (false, l')
      else (false, l)
  | [] => (false, l)
  end.

Definition digits (l : list ascii) : list ascii := prefix_of isdigit l.
Definition after_digits (l : list ascii) : list ascii := skip isdigit l.

Definition Z_of_digits (ds : list ascii) : Z :=
  fold_left (fun acc c => 10 * acc + digit_value c) ds 0.

(** [int(s)] for a [str]: blanks, an optional sign, decimal digits with
    single underscores between them, blanks.  [ValueError] otherwise. *)
Definition int_of_str (s : string) : result Z :=
  match drop_underscores None (list_ascii_of_string s) with
  | None => Raise ValueError
  | Some l =>
      let '(neg, body) := take_sign (strip l) in
      match body with
      | [] => Raise ValueError
      | _ :: _ =>
          if forallb isdigit body
          then Ok (if neg then - Z_of_digits body else Z_of_digits body)
          else Raise ValueError
      end
  end.

(** The binary64 number nearest to [m * 10^e] for [0 < m] (ties to even),
    with the sign [neg].  A negative exponent divides: the quotient keeps
    64 bits and one more that records a non-zero remainder. *)
Definition float_of_decimal (neg : bool) (m e : Z) : float :=
  let sgn (x : Z) := if neg then - x else x in
  if m =? 0 then (if neg then PrimFloat.neg_zero else PrimFloat.zero)
  else if 0 <=? e then
    SF2Prim (binary_normalize prec emax (sgn (m * 10 ^ e)) 0 false)
  else
    let k := 10 ^ (- e) in
    let s := Z.log2 k + 64 in
    let q := (m * 2 ^ s) / k in
    let sticky := if (m * 2 ^ s) mod k =? 0 then 0 else 1 in
    SF2Prim (binary_normalize prec emax (sgn (2 * q + sticky)) (- (s + 1)) false).

(** Exponent part of a float literal: nothing, or [e]/[E], an optional
    sign and at least one digit. *)
Definition exponent (l : list ascii) : option Z :=
  match l with
  | [] => Some 0
  | c :: l' =>
      if Ascii.eqb (lower_char c) "e" then
        let '(neg, ds) := take_sign l' in
        match ds with
        | [] => None
        | _ :: _ =>
            if forallb isdigit ds
            then Some (if neg then - Z_of_digits ds else Z_of_digits ds)
            else None
        end
      else None
  end.

(** [float(s)] for a [str]: blanks, an optional sign, then [inf],
    [infinity] or [nan] in any case, or digits with an optional point and
    exponent.  [ValueError] otherwise; a literal too large is infinite. *)
Definition float_of_str (s : string) : result float :=
  match drop_underscores None (list_ascii_of_string s) with
  | None => Raise ValueError
  | Some l =>
      let '(neg, body) := take_sign (strip l) in
      let word := lower (string_of_list_ascii body) in
      if String.eqb word "inf" || String.eqb word "infinity"
      then Ok (if neg then PrimFloat.neg_infinity else PrimFloat.infinity)
      else if String.eqb word "nan" then Ok PrimFloat.nan
      else
        let ip := digits body in
        let '(fp, rest) :=
          match after_digits body with
          | c :: r => if Ascii.eqb c "." then (digits r, after_digits r)
                      else ([], c :: r)
          | [] => ([], [])
          end in
        match (ip ++ fp)%list, exponent rest with
        | _ :: _, Some x =>
            Ok (float_of_decimal neg (Z_of_digits (ip ++ fp)%list)
                  (x - Z.of_nat (length fp)))
        | _, _ => Raise ValueError
        end
  end.

End Py.

(** ** Enums (source lines 15-51)

    Each class is a module: the members, and [value], the wire string. *)

Module ScrollDirection.
Inductive t := HORIZONTAL | VERTICAL.
Definition value (m : t) : string :=
  match m with
  | HORIZONTAL => "horizontal"
  | VERTICAL => "vertical"
  end.
End ScrollDirection.

Module AnimateToCurve.
Inductive t :=
| LINEAR | EASE_IN | EASE_OUT | EASE_IN_OUT | BOUNCE_IN | BOUNCE_OUT
| ELASTIC_IN | ELASTIC_OUT | DECELERATE | FAST_OUT_SLOW_IN.
Definition value (m : t) : string :=
  match m with
  | LINEAR => "linear"
  | EASE_IN => "easeIn"
  | EASE_OUT => "easeOut"
  | EASE_IN_OUT => "easeInOut"
  | BOUNCE_IN => "bounceIn"
  | BOUNCE_OUT => "bounceOut"
  | ELASTIC_IN => "elasticIn"
  | ELASTIC_OUT => "elasticOut"
  | DECELERATE => "decelerate"
  | FAST_OUT_SLOW_IN => "fastOutSlowIn"
  end.
End AnimateToCurve.

Module EnlargeStrategy.
Inductive t := SCALE | HEIGHT | ZOOM.
Definition value (m : t) : string :=
  match m with
  | SCALE => "scale"
  | HEIGHT => "height"
  | ZOOM => "zoom"
  end.
End EnlargeStrategy.

Module ClipBehavior.
Inductive t := NONE | HARD_EDGE | ANTI_ALIAS | ANTI_ALIAS_WITH_SAVE_LAYER.
Definition value (m : t) : string :=
  match m with
  | NONE => "none"
  | HARD_EDGE => "hardEdge"
  | ANTI_ALIAS => "antiAlias"
  | ANTI_ALIAS_WITH_SAVE_LAYER => "antiAliasWithSaveLayer"
  end.
End ClipBehavior.

Module CarouselPageChangedReason.
Inductive t := TIMED | MANUAL | CONTROLLER.
Definition value (m : t) : string :=
  match m with
  | TIMED => "timed"
  | MANUAL => "manual"
  | CONTROLLER => "controller"
  end.
Definition members : list t := [TIMED; MANUAL; CONTROLLER].

(** [CarouselPageChangedReason(s)]: the member whose value is [s], and
    [ValueError] when there is none. *)
Definition of_value (s : string) : result t :=
  match List.find (fun m => String.eqb (value m) s) members with
  | Some m => Ok m
  | None => Raise ValueError
  end.
End CarouselPageChangedReason.

#[global] Instance ScrollDirection_eq_dec : EqDecision ScrollDirection.t.
Proof. solve_decision. Defined.
#[global] Instance AnimateToCurve_eq_dec : EqDecision AnimateToCurve.t.
Proof. solve_decision. Defined.
#[global] Instance EnlargeStrategy_eq_dec : EqDecision EnlargeStrategy.t.
Proof. solve_decision. Defined.
#[global] Instance ClipBehavior_eq_dec : EqDecision ClipBehavior.t.
Proof. solve_decision. Defined.
#[global] Instance CarouselPageChangedReason_eq_dec :
  EqDecision CarouselPageChangedReason.t.
Proof. solve_decision. Defined.

(** ** Dynamically typed values

    What an option of the control can hold: the source's setters accept
    any object and store it as it is. *)

Inductive pyval :=
| VNone
| VBool (b : bool)
| VInt (n : Z)
| VFloat (x : float)
| VStr (s : string)
| VScrollDirection (m : ScrollDirection.t)
| VAnimateToCurve (m : AnimateToCurve.t)
| VEnlargeStrategy (m : EnlargeStrategy.t)
| VClipBehavior (m : ClipBehavior.t).

Module PyVal.

Definition Z_of_bool (b : bool) : Z := if b then 1 else 0.

(** An [int] equals a [float] when the float is that integer exactly. *)
Definition float_eqb_Z (x : float) (n : Z) : bool :=
  match Prim2SF x with
  | S754_zero _ => n =? 0
  | S754_finite s m e =>
      let v := if s then Z.neg m else Z.pos m in
      if 0 <=? e then v * 2 ^ e =? n else v =? n * 2 ^ (- e)
  | _ => false
  end.

(** [a == b].  [bool], [int] and [float] compare by numeric value; a
    member of a plain [Enum] equals only itself. *)
Definition eqb (a b : pyval) : bool :=
  match a, b with
  | VNone, VNone => true
  | VBool x, VBool y => Bool.eqb x y
  | VBool x, VInt n | VInt n, VBool x => Z_of_bool x =? n
  | VBool x, VFloat y | VFloat y, VBool x => float_eqb_Z y (Z_of_bool x)
  | VInt n, VInt m => n =? m
  | VInt n, VFloat y | VFloat y, VInt n => float_eqb_Z y n
  | VFloat x, VFloat y => PrimFloat.eqb x y
  | VStr s, VStr t => String.eqb s t
  | VScrollDirection m, VScrollDirection m' => bool_decide (m = m')
  | VAnimateToCurve m, VAnimateToCurve m' => bool_decide (m = m')
  | VEnlargeStrategy m, VEnlargeStrategy m' => bool_decide (m = m')
  | VClipBehavior m, VClipBehavior m' => bool_decide (m = m')
  | _, _ => false
  end.

End PyVal.

(** ** Events (source lines 56-94) *)

Module ControlEvent.
(** The fields of flet's [ControlEvent] that carry data; [control] and
    [page] are references to the control and its page. *)
Record t := { target : string; name : string; data : option string }.

(** The operand [e.data] of [e.data or default]: [None] when the payload
    is missing or empty, in which case [or] yields the default. *)
Definition truthy_data (e : t) : option string :=
  match data e with
  | Some s => if String.eqb s "" then None else Some s
  | None => None
  end.
End ControlEvent.

Module CarouselChangeEvent.
Record t := {
  event : ControlEvent.t;
  index : Z;
  reason : CarouselPageChangedReason.t;
}.

Definition __init__ (e : ControlEvent.t) : result t :=
  let super :=
    {| ControlEvent.target := ControlEvent.target e;
       ControlEvent.name := ControlEvent.name e;
       ControlEvent.data := ControlEvent.data e |} in
  let payload :=
    match ControlEvent.truthy_data e with
    | Some s => s
    | None => "0:manual"
    end in
  let parts := Py.split ":" payload in
  let* part0 := Py.getitem parts 0 in
  let* index := Py.int_of_str part0 in
  let* reason :=
    try_except
      (let* part1 := Py.getitem parts 1 in
       CarouselPageChangedReason.of_value part1)
      ValueError
      CarouselPageChangedReason.MANUAL in
  Ok {| event := super; index := index; reason := reason |}.
End CarouselChangeEvent.

Module CarouselScrolledEvent.
Record t := {
  event : ControlEvent.t;
  value : float;
}.

Definition __init__ (e : ControlEvent.t) : result t :=
  let super :=
    {| ControlEvent.target := ControlEvent.target e;
       ControlEvent.name := ControlEvent.name e;
       ControlEvent.data := ControlEvent.data e |} in
  let* value :=
    match ControlEvent.truthy_data e with
    | Some s => Py.float_of_str s
    | None => Ok 0%float
    end in
  Ok {| event := super; value := value |}.
End CarouselScrolledEvent.

(** ** Handlers

    A handler the application registers is an opaque callable.  What the
    control registers with its base class is the closure [_wrap] of the
    [on_change] or [on_scrolled] setter, which captures [handler]. *)

Inductive callable := Callable (id : nat).

Inductive event_handler :=
| on_change_wrap (handler : option callable)
| on_scrolled_wrap (handler : option callable).

(** One invocation of an application handler, with its argument. *)
Inductive call :=
| CallChange (f : callable) (e : CarouselChangeEvent.t)
| CallScrolled (f : callable) (e : CarouselScrolledEvent.t).

(** The body of [_wrap] (source lines 637-639 and 651-653). *)
Definition _wrap (w : event_handler) (e : ControlEvent.t) : result (list call) :=
  match w with
  | on_change_wrap handler =>
      match handler with
      | Some f => let* ev := CarouselChangeEvent.__init__ e in Ok [CallChange f ev]
      | None => Ok []
      end
  | on_scrolled_wrap handler =>
      match handler with
      | Some f => let* ev := CarouselScrolledEvent.__init__ e in Ok [CallScrolled f ev]
      | None => Ok []
      end
  end.

(** ** The base class [flet.core.control.Control] *)

Inductive Page := PageRef (id : nat).

Module Control.

Record t := {
  _Control__attrs : gmap string (pyval * bool);
  _Control__event_handlers : gmap string (option event_handler);
  _Control__page : option Page;
}.

Definition with_attrs (f : gmap string (pyval * bool) -> gmap string (pyval * bool))
    (self : t) : t :=
  {| _Control__attrs := f (_Control__attrs self);
     _Control__event_handlers := _Control__event_handlers self;
     _Control__page := _Control__page self |}.

(** Modelled from the spec: the string-keyed attribute store of the base
    class, which the source imports from the flet package (source line 7)
    and which is not under src/.  A setter writes through to the store, a
    getter reads the stored value back or returns the default when the key
    is absent.  The details are flet's: keys are lower-cased, an entry is
    a value and a dirty flag, assigning [None] to an absent key stores
    nothing and to a present key stores the empty string, and an equal
    value is not written again. *)
Definition _set_attr_internal (name : string) (value : pyval) (dirty : bool)
    (attrs : gmap string (pyval * bool)) : gmap string (pyval * bool) :=
  let name := Py.lower name in
  let orig_val := attrs !! name in
  match orig_val, value with
  | None, VNone => attrs
  | _, _ =>
      let value := match value with VNone => VStr "" | _ => value end in
      match orig_val with
      | None => <[name := (value, dirty)]> attrs
      | Some orig =>
          if negb (PyVal.eqb orig.1 value)
          then <[name := (value, dirty)]> attrs
          else attrs
      end
  end.

Definition _set_attr (name : string) (value : pyval) (self : t) : t :=
  with_attrs (_set_attr_internal name value true) self.

(** Modelled from the spec: the read side of the attribute store of the
    base class, not under src/.  The default is returned when the key is
    absent; a stored [str] is converted as [data_type] says ([bool] by
    comparing its lower case with [true], [float] and [int] by the
    built-in conversions), any other stored value is returned as it is. *)
Definition _get_attr (self : t) (name : string) (def_value : pyval)
    (data_type : string) : result pyval :=
  let name := Py.lower name in
  match _Control__attrs self !! name with
  | None => Ok def_value
  | Some entry =>
      match entry.1 with
      | VStr s_val =>
          if String.eqb data_type "bool" then
            Ok (VBool (String.eqb (Py.lower s_val) "true"))
          else if String.eqb data_type "bool?" then
            Ok (if String.eqb (Py.lower s_val) "true"
                   || String.eqb (Py.lower s_val) "false"
                then VBool (String.eqb (Py.lower s_val) "true")
                else def_value)
          else if String.eqb data_type "float" then
            let* x := Py.float_of_str s_val in Ok (VFloat x)
          else if String.eqb data_type "int" then
            let* n := Py.int_of_str s_val in Ok (VInt n)
          else Ok (VStr s_val)
      | s_val => Ok s_val
      end
  end.

(** Modelled from the spec: handler registration of the base class, not
    under src/: replace on set, one entry per event name. *)
Definition _add_event_handler (event_name : string)
    (handler : option event_handler) (self : t) : t :=
  {| _Control__attrs := _Control__attrs self;
     _Control__event_handlers :=
       <[event_name := handler]> (_Control__event_handlers self);
     _Control__page := _Control__page self |}.

(** Modelled from the spec: event delivery by the host, not under src/:
    the handler registered under the event's name is invoked when there is
    one.  The result lists the application handlers that were called. *)
Definition dispatch (self : t) (e : ControlEvent.t) : result (list call) :=
  match _Control__event_handlers self !! ControlEvent.name e with
  | Some (Some handler) => _wrap handler e
  | Some None | None => Ok []
  end.

(** Modelled from the spec: the "apply pending changes" call of the base
    class, not under src/.  It needs the control to be on a page
    ([AssertionError] otherwise) and sends the dirty attributes, after
    which none is dirty.  It changes no stored value. *)
Definition update (self : t) : result unit * t :=
  match _Control__page self with
  | None => (Raise AssertionError, self)
  | Some _ => (Ok tt, with_attrs (fmap (fun entry => (entry.1, false))) self)
  end.

(** The [page] setter of the base class: the page sets it when the
    control is added to it, and clears it when the control is removed. *)
Definition set_page (page : option Page) (self : t) : t :=
  {| _Control__attrs := _Control__attrs self;
     _Control__event_handlers := _Control__event_handlers self;
     _Control__page := page |}.

(** [Control.__init__(ref, visible, disabled, data)]: an empty store and
    no handler; [visible] and [disabled] are attributes of the store.
    [ref] and [data] do not reach the store. *)
Definition __init__ (visible disabled : pyval) : t :=
  _set_attr "disabled" disabled
    (_set_attr "visible" visible
       {| _Control__attrs := ∅;
          _Control__event_handlers := ∅;
          _Control__page := None |}).

End Control.

(** ** The control (source lines 99-654) *)

(** A child control of the carousel: an opaque reference. *)
Inductive ControlRef := ControlId (id : nat).

(** The [curve] argument of the navigation methods: a member of
    [AnimateToCurve], or a [str], which [str(curve)] leaves as it is.
    Other objects are outside the model. *)
Inductive curve_arg :=
| Curve (m : AnimateToCurve.t)
| CurveStr (s : string).

(** The arguments of [Carousel.__init__] (source lines 185-225), without
    [ref] and [data], which go to the base class and not to the store. *)
Module CarouselArgs.
Record t := {
  controls : option (list ControlRef);
  height : pyval;
  aspect_ratio : pyval;
  viewport_fraction : pyval;
  initial_page : pyval;
  disablegesture : pyval;
  enable_indicator : pyval;
  indicatorwidth : pyval;
  indicator_inactive_color : pyval;
  indicator_active_color : pyval;
  build_on_demand : pyval;
  enable_infinite_scroll : pyval;
  animate_to_closest : pyval;
  reverse : pyval;
  auto_play : pyval;
  auto_play_interval : pyval;
  auto_play_animation_duration : pyval;
  auto_play_curve : pyval;
  enlarge_center_page : pyval;
  enlarge_strategy : pyval;
  enlarge_factor : pyval;
  page_snapping : pyval;
  scroll_direction : pyval;
  pause_auto_play_on_touch : pyval;
  pause_auto_play_on_manual_navigate : pyval;
  pause_auto_play_in_finite_scroll : pyval;
  disable_center : pyval;
  pad_ends : pyval;
  clip_behavior : pyval;
  on_change : option callable;
  on_scrolled : option callable;
  visible : pyval;
  disabled : pyval;
}.

(** The defaults of the signature; [controls] has none. *)
Definition defaults (controls : option (list ControlRef)) : t :=
  {| controls := controls;
     height := VNone;
     aspect_ratio := VFloat (16 / 9)%float;
     viewport_fraction := VFloat 0.8%float;
     initial_page := VInt 0;
     disablegesture := VBool false;
     enable_indicator := VBool true;
     indicatorwidth := VNone;
     indicator_inactive_color := VNone;
     indicator_active_color := VNone;
     build_on_demand := VBool false;
     enable_infinite_scroll := VBool true;
     animate_to_closest := VBool true;
     reverse := VBool false;
     auto_play := VBool false;
     auto_play_interval := VInt 4000;
     auto_play_animation_duration := VInt 800;
     auto_play_curve := VAnimateToCurve AnimateToCurve.FAST_OUT_SLOW_IN;
     enlarge_center_page := VBool false;
     enlarge_strategy := VEnlargeStrategy EnlargeStrategy.SCALE;
     enlarge_factor := VFloat 0.3%float;
     page_snapping := VBool true;
     scroll_direction := VScrollDirection ScrollDirection.HORIZONTAL;
     pause_auto_play_on_touch := VBool true;
     pause_auto_play_on_manual_navigate := VBool true;
     pause_auto_play_in_finite_scroll := VBool false;
     disable_center := VBool false;
     pad_ends := VBool true;
     clip_behavior := VClipBehavior ClipBehavior.HARD_EDGE;
     on_change := None;
     on_scrolled := None;
     visible := VNone;
     disabled := VNone |}.
End CarouselArgs.

Module Carousel.

(** The instance: the part of the base class, and the private attributes
    of the class under their mangled names. *)
Record t := {
  base : Control.t;
  _Carousel__controls : option (list ControlRef);
  _Carousel__auto_play_curve : pyval;
  _Carousel__enlarge_strategy : pyval;
  _Carousel__scroll_direction : pyval;
  _Carousel__clip_behavior : pyval;
  _Carousel__on_change : option callable;
  _Carousel__on_scrolled : option callable;
  _Carousel__cmd_counter : Z;
}.

(** Assignment to one attribute of the instance. *)
Definition assign_base (value : Control.t) (self : t) : t :=
  {| base := value;
     _Carousel__controls := _Carousel__controls self;
     _Carousel__auto_play_curve := _Carousel__auto_play_curve self;
     _Carousel__enlarge_strategy := _Carousel__enlarge_strategy self;
     _Carousel__scroll_direction := _Carousel__scroll_direction self;
     _Carousel__clip_behavior := _Carousel__clip_behavior self;
     _Carousel__on_change := _Carousel__on_change self;
     _Carousel__on_scrolled := _Carousel__on_scrolled self;
     _Carousel__cmd_counter := _Carousel__cmd_counter self |}.

Definition assign_controls (value : option (list ControlRef)) (self : t) : t :=
  {| base := base self;
     _Carousel__controls := value;
     _Carousel__auto_play_curve := _Carousel__auto_play_curve self;
     _Carousel__enlarge_strategy := _Carousel__enlarge_strategy self;
     _Carousel__scroll_direction := _Carousel__scroll_direction self;
     _Carousel__clip_behavior := _Carousel__clip_behavior self;
     _Carousel__on_change := _Carousel__on_change self;
     _Carousel__on_scrolled := _Carousel__on_scrolled self;
     _Carousel__cmd_counter := _Carousel__cmd_counter self |}.

Definition assign_auto_play_curve (value : pyval) (self : t) : t :=
  {| base := base self;
     _Carousel__controls := _Carousel__controls self;
     _Carousel__auto_play_curve := value;
     _Carousel__enlarge_strategy := _Carousel__enlarge_strategy self;
     _Carousel__scroll_direction := _Carousel__scroll_direction self;
     _Carousel__clip_behavior := _Carousel__clip_behavior self;
     _Carousel__on_change := _Carousel__on_change self;
     _Carousel__on_scrolled := _Carousel__on_scrolled self;
     _Carousel__cmd_counter := _Carousel__cmd_counter self |}.

Definition assign_enlarge_strategy (value : pyval) (self : t) : t :=
  {| base := base self;
     _Carousel__controls := _Carousel__controls self;
     _Carousel__auto_play_curve := _Carousel__auto_play_curve self;
     _Carousel__enlarge_strategy := value;
     _Carousel__scroll_direction := _Carousel__scroll_direction self;
     _Carousel__clip_behavior := _Carousel__clip_behavior self;
     _Carousel__on_change := _Carousel__on_change self;
     _Carousel__on_scrolled := _Carousel__on_scrolled self;
     _Carousel__cmd_counter := _Carousel__cmd_counter self |}.

Definition assign_scroll_direction (value : pyval) (self : t) : t :=
  {| base := base self;
     _Carousel__controls := _Carousel__controls self;
     _Carousel__auto_play_curve := _Carousel__auto_play_curve self;
     _Carousel__enlarge_strategy := _Carousel__enlarge_strategy self;
     _Carousel__scroll_direction := value;
     _Carousel__clip_behavior := _Carousel__clip_behavior self;
     _Carousel__on_change := _Carousel__on_change self;
     _Carousel__on_scrolled := _Carousel__on_scrolled self;
     _Carousel__cmd_counter := _Carousel__cmd_counter self |}.

Definition assign_clip_behavior (value : pyval) (self : t) : t :=
  {| base := base self;
     _Carousel__controls := _Carousel__controls self;
     _Carousel__auto_play_curve := _Carousel__auto_play_curve self;
     _Carousel__enlarge_strategy := _Carousel__enlarge_strategy self;
     _Carousel__scroll_direction := _Carousel__scroll_direction self;
     _Carousel__clip_behavior := value;
     _Carousel__on_change := _Carousel__on_change self;
     _Carousel__on_scrolled := _Carousel__on_scrolled self;
     _Carousel__cmd_counter := _Carousel__cmd_counter self |}.

Definition assign_on_change (value : option callable) (self : t) : t :=
  {| base := base self;
     _Carousel__controls := _Carousel__controls self;
     _Carousel__auto_play_curve := _Carousel__auto_play_curve self;
     _Carousel__enlarge_strategy := _Carousel__enlarge_strategy self;
     _Carousel__scroll_direction := _Carousel__scroll_direction self;
     _Carousel__clip_behavior := _Carousel__clip_behavior self;
     _Carousel__on_change := value;
     _Carousel__on_scrolled := _Carousel__on_scrolled self;
     _Carousel__cmd_counter := _Carousel__cmd_counter self |}.

Definition assign_on_scrolled (value : option callable) (self : t) : t :=
  {| base := base self;
     _Carousel__controls := _Carousel__controls self;
     _Carousel__auto_play_curve := _Carousel__auto_play_curve self;
     _Carousel__enlarge_strategy := _Carousel__enlarge_strategy self;
     _Carousel__scroll_direction := _Carousel__scroll_direction self;
     _Carousel__clip_behavior := _Carousel__clip_behavior self;
     _Carousel__on_change := _Carousel__on_change self;
     _Carousel__on_scrolled := value;
     _Carousel__cmd_counter := _Carousel__cmd_counter self |}.

Definition assign_cmd_counter (value : Z) (self : t) : t :=
  {| base := base self;
     _Carousel__controls := _Carousel__controls self;
     _Carousel__auto_play_curve := _Carousel__auto_play_curve self;
     _Carousel__enlarge_strategy := _Carousel__enlarge_strategy self;
     _Carousel__scroll_direction := _Carousel__scroll_direction self;
     _Carousel__clip_behavior := _Carousel__clip_behavior self;
     _Carousel__on_change := _Carousel__on_change self;
     _Carousel__on_scrolled := _Carousel__on_scrolled self;
     _Carousel__cmd_counter := value |}.

(** Methods inherited from the base class. *)
Definition _get_attr (self : t) (name : string) (def_value : pyval)
    (data_type : string) : result pyval :=
  Control._get_attr (base self) name def_value data_type.
Definition _set_attr (name : string) (value : pyval) (self : t) : t :=
  assign_base (Control._set_attr name value (base self)) self.
Definition _add_event_handler (event_name : string)
    (handler : option event_handler) (self : t) : t :=
  assign_base (Control._add_event_handler event_name handler (base self)) self.
Definition update (self : t) : result unit * t :=
  let '(r, b) := Control.update (base self) in (r, assign_base b self).
Definition dispatch (self : t) (e : ControlEvent.t) : result (list call) :=
  Control.dispatch (base self) e.
Definition set_page (page : option Page) (self : t) : t :=
  assign_base (Control.set_page page (base self)) self.

(** *** Flet internals (source lines 267-271) *)

Definition _get_control_name (self : t) : string := "flet_carousel_slider".

Definition _get_children (self : t) : option (list ControlRef) :=
  _Carousel__controls self.

(** *** Controller methods (source lines 275-313) *)

Definition _next_cmd (self : t) : Z * t :=
  let self := assign_cmd_counter (_Carousel__cmd_counter self + 1) self in
  (_Carousel__cmd_counter self, self).

(** [curve.value if isinstance(curve, AnimateToCurve) else str(curve)]. *)
Definition curve_id (curve : curve_arg) : string :=
  match curve with
  | Curve m => AnimateToCurve.value m
  | CurveStr s => s
  end.

Definition animate_to_page (index duration : Z) (curve : curve_arg)
    (self : t) : result unit * t :=
  let curve_id := curve_id curve in
  let '(cmd, self) := _next_cmd self in
  let self :=
    _set_attr "__animateTo"
      (VStr (Py.str_of_int index +:+ ":" +:+ Py.str_of_int duration +:+ ":"
             +:+ curve_id +:+ ":" +:+ Py.str_of_int cmd)) self in
  update self.

Definition next_page (duration : Z) (curve : curve_arg) (self : t)
    : result unit * t :=
  let curve_id := curve_id curve in
  let '(cmd, self) := _next_cmd self in
  let self :=
    _set_attr "__animateTo"
      (VStr ("__next:" +:+ Py.str_of_int duration +:+ ":"
             +:+ curve_id +:+ ":" +:+ Py.str_of_int cmd)) self in
  update self.

Definition previous_page (duration : Z) (curve : curve_arg) (self : t)
    : result unit * t :=
  let curve_id := curve_id curve in
  let '(cmd, self) := _next_cmd self in
  let self :=
    _set_attr "__animateTo"
      (VStr ("__prev:" +:+ Py.str_of_int duration +:+ ":"
             +:+ curve_id +:+ ":" +:+ Py.str_of_int cmd)) self in
  update self.

Definition jump_to_page (index : Z) (self : t) : result unit * t :=
  let '(cmd, self) := _next_cmd self in
  let self :=
    _set_attr "__animateTo"
      (VStr ("__jump:" +:+ Py.str_of_int index +:+ ":none:"
             +:+ Py.str_of_int cmd)) self in
  update self.

(** *** Properties (source lines 317-654)

    A property [p] is the getter [p] and the setter [set_p]. *)

Definition controls (self : t) : option (list ControlRef) :=
  _Carousel__controls self.
Definition set_controls (value : option (list ControlRef)) (self : t) : t :=
  assign_controls (Some (match value with Some l => l | None => [] end)) self.

Definition height (self : t) : result pyval :=
  _get_attr self "height" VNone "float".
Definition set_height (value : pyval) (self : t) : t :=
  _set_attr "height" value self.

Definition aspect_ratio (self : t) : result pyval :=
  _get_attr self "aspectRatio" (VFloat (16 / 9)%float) "float".
Definition set_aspect_ratio (value : pyval) (self : t) : t :=
  _set_attr "aspectRatio" value self.

Definition viewport_fraction (self : t) : result pyval :=
  _get_attr self "viewportFraction" (VFloat 0.8%float) "float".
Definition set_viewport_fraction (value : pyval) (self : t) : t :=
  _set_attr "viewportFraction" value self.

Definition initial_page (self : t) : result pyval :=
  _get_attr self "initialPage" (VInt 0) "int".
Definition set_initial_page (value : pyval) (self : t) : t :=
  _set_attr "initialPage" value self.

Definition enable_infinite_scroll (self : t) : result pyval :=
  _get_attr self "enableInfiniteScroll" (VBool true) "bool".
Definition set_enable_infinite_scroll (value : pyval) (self : t) : t :=
  _set_attr "enableInfiniteScroll" value self.

Definition disablegesture (self : t) : result pyval :=
  _get_attr self "disableGesture" (VBool false) "bool".
Definition set_disablegesture (value : pyval) (self : t) : t :=
  _set_attr "disableGesture" value self.

Definition enable_indicator (self : t) : result pyval :=
  _get_attr self "enableindicator" (VBool true) "bool".
Definition set_enable_indicator (value : pyval) (self : t) : t :=
  _set_attr "enableindicator" value self.

Definition indicatorwidth (self : t) : result pyval :=
  _get_attr self "indicatorwidth" VNone "int".
Definition set_indicatorwidth (value : pyval) (self : t) : t :=
  _set_attr "indicatorwidth" value self.

Definition indicator_inactive_color (self : t) : result pyval :=
  _get_attr self "indicatorInactiveColor" VNone "int".
Definition set_indicator_inactive_color (value : pyval) (self : t) : t :=
  _set_attr "indicatorInactiveColor" value self.

Definition indicator_active_color (self : t) : result pyval :=
  _get_attr self "indicatorActiveColor" VNone "bool".
Definition set_indicator_active_color (value : pyval) (self : t) : t :=
  _set_attr "indicatorActiveColor" value self.

Definition build_on_demand (self : t) : result pyval :=
  _get_attr self "build_on_demand" (VBool false) "bool".
Definition set_build_on_demand (value : pyval) (self : t) : t :=
  _set_attr "build_on_demand" value self.

Definition animate_to_closest (self : t) : result pyval :=
  _get_attr self "animateToClosest" (VBool true) "bool".
Definition set_animate_to_closest (value : pyval) (self : t) : t :=
  _set_attr "animateToClosest" value self.

Definition reverse (self : t) : result pyval :=
  _get_attr self "reverse" (VBool false) "bool".
Definition set_reverse (value : pyval) (self : t) : t :=
  _set_attr "reverse" value self.

Definition auto_play (self : t) : result pyval :=
  _get_attr self "autoPlay" (VBool false) "bool".
Definition set_auto_play (value : pyval) (self : t) : t :=
  _set_attr "autoPlay" value self.

Definition auto_play_interval (self : t) : result pyval :=
  _get_attr self "autoPlayInterval" (VInt 4000) "int".
Definition set_auto_play_interval (value : pyval) (self : t) : t :=
  _set_attr "autoPlayInterval" value self.

Definition auto_play_animation_duration (self : t) : result pyval :=
  _get_attr self "autoPlayAnimationDuration" (VInt 800) "int".
Definition set_auto_play_animation_duration (value : pyval) (self : t) : t :=
  _set_attr "autoPlayAnimationDuration" value self.

Definition enlarge_center_page (self : t) : result pyval :=
  _get_attr self "enlargeCenterPage" (VBool false) "bool".
Definition set_enlarge_center_page (value : pyval) (self : t) : t :=
  _set_attr "enlargeCenterPage" value self.

Definition enlarge_factor (self : t) : result pyval :=
  _get_attr self "enlargeFactor" (VFloat 0.3%float) "float".
Definition set_enlarge_factor (value : pyval) (self : t) : t :=
  _set_attr "enlargeFactor" value self.

Definition page_snapping (self : t) : result pyval :=
  _get_attr self "pageSnapping" (VBool true) "bool".
Definition set_page_snapping (value : pyval) (self : t) : t :=
  _set_attr "pageSnapping" value self.

Definition pause_auto_play_on_touch (self : t) : result pyval :=
  _get_attr self "pauseAutoPlayOnTouch" (VBool true) "bool".
Definition set_pause_auto_play_on_touch (value : pyval) (self : t) : t :=
  _set_attr "pauseAutoPlayOnTouch" value self.

Definition pause_auto_play_on_manual_navigate (self : t) : result pyval :=
  _get_attr self "pauseAutoPlayOnManualNavigate" (VBool true) "bool".
Definition set_pause_auto_play_on_manual_navigate (value : pyval) (self : t) : t :=
  _set_attr "pauseAutoPlayOnManualNavigate" value self.

Definition pause_auto_play_in_finite_scroll (self : t) : result pyval :=
  _get_attr self "pauseAutoPlayInFiniteScroll" (VBool false) "bool".
Definition set_pause_auto_play_in_finite_scroll (value : pyval) (self : t) : t :=
  _set_attr "pauseAutoPlayInFiniteScroll" value self.

Definition disable_center (self : t) : result pyval :=
  _get_attr self "disableCenter" (VBool false) "bool".
Definition set_disable_center (value : pyval) (self : t) : t :=
  _set_attr "disableCenter" value self.

Definition pad_ends (self : t) : result pyval :=
  _get_attr self "padEnds" (VBool true) "bool".
Definition set_pad_ends (value : pyval) (self : t) : t :=
  _set_attr "padEnds" value self.

Definition auto_play_curve (self : t) : pyval :=
  _Carousel__auto_play_curve self.
Definition set_auto_play_curve (value : pyval) (self : t) : t :=
  let self := assign_auto_play_curve value self in
  _set_attr "autoPlayCurve"
    (match value with
     | VAnimateToCurve m => VStr (AnimateToCurve.value m)
     | _ => value
     end) self.

Definition enlarge_strategy (self : t) : pyval :=
  _Carousel__enlarge_strategy self.
Definition set_enlarge_strategy (value : pyval) (self : t) : t :=
  let self := assign_enlarge_strategy value self in
  _set_attr "enlargeStrategy"
    (match value with
     | VEnlargeStrategy m => VStr (EnlargeStrategy.value m)
     | _ => value
     end) self.

Definition scroll_direction (self : t) : pyval :=
  _Carousel__scroll_direction self.
Definition set_scroll_direction (value : pyval) (self : t) : t :=
  let self := assign_scroll_direction value self in
  _set_attr "scrollDirection"
    (match value with
     | VScrollDirection m => VStr (ScrollDirection.value m)
     | _ => value
     end) self.

Definition clip_behavior (self : t) : pyval :=
  _Carousel__clip_behavior self.
Definition set_clip_behavior (value : pyval) (self : t) : t :=
  let self := assign_clip_behavior value self in
  _set_attr "clipBehavior"
    (match value with
     | VClipBehavior m => VStr (ClipBehavior.value m)
     | _ => value
     end) self.

Definition on_change (self : t) : option callable :=
  _Carousel__on_change self.
Definition set_on_change (handler : option callable) (self : t) : t :=
  let self := assign_on_change handler self in
  let _wrap := on_change_wrap handler in
  _add_event_handler "change"
    (match handler with Some _ => Some _wrap | None => None end) self.

Definition on_scrolled (self : t) : option callable :=
  _Carousel__on_scrolled self.
Definition set_on_scrolled (handler : option callable) (self : t) : t :=
  let self := assign_on_scrolled handler self in
  let _wrap := on_scrolled_wrap handler in
  _add_event_handler "scrolled"
    (match handler with Some _ => Some _wrap | None => None end) self.


(** *** The constructor (source lines 185-263)

    The private attributes do not exist before their first assignment;
    the constructor assigns every one of them, so what the record holds
    for them at the start is never read. *)
Definition __init__ (a : CarouselArgs.t) : t :=
  let self :=
    {| base := Control.__init__ (CarouselArgs.visible a) (CarouselArgs.disabled a);
       _Carousel__controls := None;
       _Carousel__auto_play_curve := VNone;
       _Carousel__enlarge_strategy := VNone;
       _Carousel__scroll_direction := VNone;
       _Carousel__clip_behavior := VNone;
       _Carousel__on_change := None;
       _Carousel__on_scrolled := None;
       _Carousel__cmd_counter := 0 |} in
  let self := set_controls (CarouselArgs.controls a) self in
  let self := set_height (CarouselArgs.height a) self in
  let self := set_aspect_ratio (CarouselArgs.aspect_ratio a) self in
  let self := set_viewport_fraction (CarouselArgs.viewport_fraction a) self in
  let self := set_initial_page (CarouselArgs.initial_page a) self in
  let self := set_disablegesture (CarouselArgs.disablegesture a) self in
  let self := set_enable_indicator (CarouselArgs.enable_indicator a) self in
  let self := set_indicatorwidth (CarouselArgs.indicatorwidth a) self in
  let self := set_indicator_active_color (CarouselArgs.indicator_active_color a) self in
  let self := set_indicator_inactive_color (CarouselArgs.indicator_inactive_color a) self in
  let self := set_build_on_demand (CarouselArgs.build_on_demand a) self in
  let self := set_enable_infinite_scroll (CarouselArgs.enable_infinite_scroll a) self in
  let self := set_animate_to_closest (CarouselArgs.animate_to_closest a) self in
  let self := set_reverse (CarouselArgs.reverse a) self in
  let self := set_auto_play (CarouselArgs.auto_play a) self in
  let self := set_auto_play_interval (CarouselArgs.auto_play_interval a) self in
  let self := set_auto_play_animation_duration (CarouselArgs.auto_play_animation_duration a) self in
  let self := set_auto_play_curve (CarouselArgs.auto_play_curve a) self in
  let self := set_enlarge_center_page (CarouselArgs.enlarge_center_page a) self in
  let self := set_enlarge_strategy (CarouselArgs.enlarge_strategy a) self in
  let self := set_enlarge_factor (CarouselArgs.enlarge_factor a) self in
  let self := set_page_snapping (CarouselArgs.page_snapping a) self in
  let self := set_scroll_direction (CarouselArgs.scroll_direction a) self in
  let self := set_pause_auto_play_on_touch (CarouselArgs.pause_auto_play_on_touch a) self in
  let self := set_pause_auto_play_on_manual_navigate (CarouselArgs.pause_auto_play_on_manual_navigate a) self in
  let self := set_pause_auto_play_in_finite_scroll (CarouselArgs.pause_auto_play_in_finite_scroll a) self in
  let self := set_disable_center (CarouselArgs.disable_center a) self in
  let self := set_pad_ends (CarouselArgs.pad_ends a) self in
  let self := set_clip_behavior (CarouselArgs.clip_behavior a) self in
  let self := set_on_change (CarouselArgs.on_change a) self in
  let self := set_on_scrolled (CarouselArgs.on_scrolled a) self in
  assign_cmd_counter 0 self.

End Carousel.

(** * The vocabulary of the properties *)

(** *** Configuration options *)

(** The options of the interface table of the spec, by name. *)
Module Opt.
Inductive t :=
| height | aspect_ratio | viewport_fraction | initial_page
| enable_infinite_scroll | disablegesture | enable_indicator
| indicatorwidth | indicator_inactive_color | indicator_active_color
| build_on_demand | animate_to_closest | reverse | auto_play
| auto_play_interval | auto_play_animation_duration | auto_play_curve
| enlarge_center_page | enlarge_strategy | enlarge_factor
| page_snapping | scroll_direction | pause_auto_play_on_touch
| pause_auto_play_on_manual_navigate
| pause_auto_play_in_finite_scroll | disable_center | pad_ends
| clip_behavior.

(** The four options whose getter reads a private attribute of the
    instance instead of the store (source lines 494-626). *)
Definition is_enum (o : t) : bool :=
  match o with
  | auto_play_curve | enlarge_strategy | scroll_direction | clip_behavior => true
  | _ => false
  end.

(** The attribute key the property of the source uses. *)
Definition key (o : t) : string :=
  match o with
  | height => "height"
  | aspect_ratio => "aspectRatio"
  | viewport_fraction => "viewportFraction"
  | initial_page => "initialPage"
  | enable_infinite_scroll => "enableInfiniteScroll"
  | disablegesture => "disableGesture"
  | enable_indicator => "enableindicator"
  | indicatorwidth => "indicatorwidth"
  | indicator_inactive_color => "indicatorInactiveColor"
  | indicator_active_color => "indicatorActiveColor"
  | build_on_demand => "build_on_demand"
  | animate_to_closest => "animateToClosest"
  | reverse => "reverse"
  | auto_play => "autoPlay"
  | auto_play_interval => "autoPlayInterval"
  | auto_play_animation_duration => "autoPlayAnimationDuration"
  | auto_play_curve => "autoPlayCurve"
  | enlarge_center_page => "enlargeCenterPage"
  | enlarge_strategy => "enlargeStrategy"
  | enlarge_factor => "enlargeFactor"
  | page_snapping => "pageSnapping"
  | scroll_direction => "scrollDirection"
  | pause_auto_play_on_touch => "pauseAutoPlayOnTouch"
  | pause_auto_play_on_manual_navigate => "pauseAutoPlayOnManualNavigate"
  | pause_auto_play_in_finite_scroll => "pauseAutoPlayInFiniteScroll"
  | disable_center => "disableCenter"
  | pad_ends => "padEnds"
  | clip_behavior => "clipBehavior"
  end.

(** The getter of the source; the four enum getters cannot raise. *)
Definition get (o : t) (self : Carousel.t) : result pyval :=
  match o with
  | height => Carousel.height self
  | aspect_ratio => Carousel.aspect_ratio self
  | viewport_fraction => Carousel.viewport_fraction self
  | initial_page => Carousel.initial_page self
  | enable_infinite_scroll => Carousel.enable_infinite_scroll self
  | disablegesture => Carousel.disablegesture self
  | enable_indicator => Carousel.enable_indicator self
  | indicatorwidth => Carousel.indicatorwidth self
  | indicator_inactive_color => Carousel.indicator_inactive_color self
  | indicator_active_color => Carousel.indicator_active_color self
  | build_on_demand => Carousel.build_on_demand self
  | animate_to_closest => Carousel.animate_to_closest self
  | reverse => Carousel.reverse self
  | auto_play => Carousel.auto_play self
  | auto_play_interval => Carousel.auto_play_interval self
  | auto_play_animation_duration => Carousel.auto_play_animation_duration self
  | auto_play_curve => Ok (Carousel.auto_play_curve self)
  | enlarge_center_page => Carousel.enlarge_center_page self
  | enlarge_strategy => Ok (Carousel.enlarge_strategy self)
  | enlarge_factor => Carousel.enlarge_factor self
  | page_snapping => Carousel.page_snapping self
  | scroll_direction => Ok (Carousel.scroll_direction self)
  | pause_auto_play_on_touch => Carousel.pause_auto_play_on_touch self
  | pause_auto_play_on_manual_navigate => Carousel.pause_auto_play_on_manual_navigate self
  | pause_auto_play_in_finite_scroll => Carousel.pause_auto_play_in_finite_scroll self
  | disable_center => Carousel.disable_center self
  | pad_ends => Carousel.pad_ends self
  | clip_behavior => Ok (Carousel.clip_behavior self)
  end.

(** The setter of the source. *)
Definition set (o : t) (value : pyval) (self : Carousel.t) : Carousel.t :=
  match o with
  | height => Carousel.set_height value self
  | aspect_ratio => Carousel.set_aspect_ratio value self
  | viewport_fraction => Carousel.set_viewport_fraction value self
  | initial_page => Carousel.set_initial_page value self
  | enable_infinite_scroll => Carousel.set_enable_infinite_scroll value self
  | disablegesture => Carousel.set_disablegesture value self
  | enable_indicator => Carousel.set_enable_indicator value self
  | indicatorwidth => Carousel.set_indicatorwidth value self
  | indicator_inactive_color => Carousel.set_indicator_inactive_color value self
  | indicator_active_color => Carousel.set_indicator_active_color value self
  | build_on_demand => Carousel.set_build_on_demand value self
  | animate_to_closest => Carousel.set_animate_to_closest value self
  | reverse => Carousel.set_reverse value self
  | auto_play => Carousel.set_auto_play value self
  | auto_play_interval => Carousel.set_auto_play_interval value self
  | auto_play_animation_duration => Carousel.set_auto_play_animation_duration value self
  | auto_play_curve => Carousel.set_auto_play_curve value self
  | enlarge_center_page => Carousel.set_enlarge_center_page value self
  | enlarge_strategy => Carousel.set_enlarge_strategy value self
  | enlarge_factor => Carousel.set_enlarge_factor value self
  | page_snapping => Carousel.set_page_snapping value self
  | scroll_direction => Carousel.set_scroll_direction value self
  | pause_auto_play_on_touch => Carousel.set_pause_auto_play_on_touch value self
  | pause_auto_play_on_manual_navigate => Carousel.set_pause_auto_play_on_manual_navigate value self
  | pause_auto_play_in_finite_scroll => Carousel.set_pause_auto_play_in_finite_scroll value self
  | disable_center => Carousel.set_disable_center value self
  | pad_ends => Carousel.set_pad_ends value self
  | clip_behavior => Carousel.set_clip_behavior value self
  end.

(** The attribute key of the interface table of the spec. *)
Definition documented_key (o : t) : string :=
  match o with
  | height => "height"
  | aspect_ratio => "aspectRatio"
  | viewport_fraction => "viewportFraction"
  | initial_page => "initialPage"
  | enable_infinite_scroll => "enableInfiniteScroll"
  | disablegesture => "disableGesture"
  | enable_indicator => "enableindicator"
  | indicatorwidth => "indicatorwidth"
  | indicator_inactive_color => "indicatorInactiveColor"
  | indicator_active_color => "indicatorActiveColor"
  | build_on_demand => "build_on_demand"
  | animate_to_closest => "animateToClosest"
  | reverse => "reverse"
  | auto_play => "autoPlay"
  | auto_play_interval => "autoPlayInterval"
  | auto_play_animation_duration => "autoPlayAnimationDuration"
  | auto_play_curve => "autoPlayCurve"
  | enlarge_center_page => "enlargeCenterPage"
  | enlarge_strategy => "enlargeStrategy"
  | enlarge_factor => "enlargeFactor"
  | page_snapping => "pageSnapping"
  | scroll_direction => "scrollDirection"
  | pause_auto_play_on_touch => "pauseAutoPlayOnTouch"
  | pause_auto_play_on_manual_navigate => "pauseAutoPlayOnManualNavigate"
  | pause_auto_play_in_finite_scroll => "pauseAutoPlayInFiniteScroll"
  | disable_center => "disableCenter"
  | pad_ends => "padEnds"
  | clip_behavior => "clipBehavior"
  end.

(** The default of the interface table of the spec; for an enum option
    the member with the wire string of the table. *)
Definition documented_default (o : t) : pyval :=
  match o with
  | height => VNone
  | aspect_ratio => VFloat (16 / 9)%float
  | viewport_fraction => VFloat 0.8%float
  | initial_page => VInt 0
  | enable_infinite_scroll => VBool true
  | disablegesture => VBool false
  | enable_indicator => VBool true
  | indicatorwidth => VNone
  | indicator_inactive_color => VNone
  | indicator_active_color => VNone
  | build_on_demand => VBool false
  | animate_to_closest => VBool true
  | reverse => VBool false
  | auto_play => VBool false
  | auto_play_interval => VInt 4000
  | auto_play_animation_duration => VInt 800
  | auto_play_curve => VAnimateToCurve AnimateToCurve.FAST_OUT_SLOW_IN
  | enlarge_center_page => VBool false
  | enlarge_strategy => VEnlargeStrategy EnlargeStrategy.SCALE
  | enlarge_factor => VFloat 0.3%float
  | page_snapping => VBool true
  | scroll_direction => VScrollDirection ScrollDirection.HORIZONTAL
  | pause_auto_play_on_touch => VBool true
  | pause_auto_play_on_manual_navigate => VBool true
  | pause_auto_play_in_finite_scroll => VBool false
  | disable_center => VBool false
  | pad_ends => VBool true
  | clip_behavior => VClipBehavior ClipBehavior.HARD_EDGE
  end.

(** The type column of the interface table of the spec. *)
Inductive ty :=
| TBool | TInt | TFloat | TColor | TCurve | TStrategy | TDirection | TClip.

Definition documented_type (o : t) : ty :=
  match o with
  | height => TFloat
  | aspect_ratio => TFloat
  | viewport_fraction => TFloat
  | initial_page => TInt
  | enable_infinite_scroll => TBool
  | disablegesture => TBool
  | enable_indicator => TBool
  | indicatorwidth => TInt
  | indicator_inactive_color => TColor
  | indicator_active_color => TColor
  | build_on_demand => TBool
  | animate_to_closest => TBool
  | reverse => TBool
  | auto_play => TBool
  | auto_play_interval => TInt
  | auto_play_animation_duration => TInt
  | auto_play_curve => TCurve
  | enlarge_center_page => TBool
  | enlarge_strategy => TStrategy
  | enlarge_factor => TFloat
  | page_snapping => TBool
  | scroll_direction => TDirection
  | pause_auto_play_on_touch => TBool
  | pause_auto_play_on_manual_navigate => TBool
  | pause_auto_play_in_finite_scroll => TBool
  | disable_center => TBool
  | pad_ends => TBool
  | clip_behavior => TClip
  end.

(** The values of a type of the table; a color is a color string. *)
Definition has_type (T : ty) (v : pyval) : bool :=
  match T, v with
  | TBool, VBool _ | TInt, VInt _ | TFloat, VFloat _ | TColor, VStr _
  | TCurve, VAnimateToCurve _ | TStrategy, VEnlargeStrategy _
  | TDirection, VScrollDirection _ | TClip, VClipBehavior _ => true
  | _, _ => false
  end.

(** The argument of the constructor that belongs to the option. *)
Definition arg (o : t) (a : CarouselArgs.t) : pyval :=
  match o with
  | height => CarouselArgs.height a
  | aspect_ratio => CarouselArgs.aspect_ratio a
  | viewport_fraction => CarouselArgs.viewport_fraction a
  | initial_page => CarouselArgs.initial_page a
  | enable_infinite_scroll => CarouselArgs.enable_infinite_scroll a
  | disablegesture => CarouselArgs.disablegesture a
  | enable_indicator => CarouselArgs.enable_indicator a
  | indicatorwidth => CarouselArgs.indicatorwidth a
  | indicator_inactive_color => CarouselArgs.indicator_inactive_color a
  | indicator_active_color => CarouselArgs.indicator_active_color a
  | build_on_demand => CarouselArgs.build_on_demand a
  | animate_to_closest => CarouselArgs.animate_to_closest a
  | reverse => CarouselArgs.reverse a
  | auto_play => CarouselArgs.auto_play a
  | auto_play_interval => CarouselArgs.auto_play_interval a
  | auto_play_animation_duration => CarouselArgs.auto_play_animation_duration a
  | auto_play_curve => CarouselArgs.auto_play_curve a
  | enlarge_center_page => CarouselArgs.enlarge_center_page a
  | enlarge_strategy => CarouselArgs.enlarge_strategy a
  | enlarge_factor => CarouselArgs.enlarge_factor a
  | page_snapping => CarouselArgs.page_snapping a
  | scroll_direction => CarouselArgs.scroll_direction a
  | pause_auto_play_on_touch => CarouselArgs.pause_auto_play_on_touch a
  | pause_auto_play_on_manual_navigate => CarouselArgs.pause_auto_play_on_manual_navigate a
  | pause_auto_play_in_finite_scroll => CarouselArgs.pause_auto_play_in_finite_scroll a
  | disable_center => CarouselArgs.disable_center a
  | pad_ends => CarouselArgs.pad_ends a
  | clip_behavior => CarouselArgs.clip_behavior a
  end.

(** What the setter of the option hands to [_set_attr]: a member of the
    option's own enum class as its wire string, anything else as it is. *)
Definition stored_form (o : t) (value : pyval) : pyval :=
  match o, value with
  | auto_play_curve, VAnimateToCurve m => VStr (AnimateToCurve.value m)
  | enlarge_strategy, VEnlargeStrategy m => VStr (EnlargeStrategy.value m)
  | scroll_direction, VScrollDirection m => VStr (ScrollDirection.value m)
  | clip_behavior, VClipBehavior m => VStr (ClipBehavior.value m)
  | _, _ => value
  end.

(** The [data_type] the getter of a store-backed option passes to
    [_get_attr]; an enum getter passes none. *)
Definition data_type (o : t) : string :=
  match o with
  | height => "float"
  | aspect_ratio => "float"
  | viewport_fraction => "float"
  | initial_page => "int"
  | enable_infinite_scroll => "bool"
  | disablegesture => "bool"
  | enable_indicator => "bool"
  | indicatorwidth => "int"
  | indicator_inactive_color => "int"
  | indicator_active_color => "bool"
  | build_on_demand => "bool"
  | animate_to_closest => "bool"
  | reverse => "bool"
  | auto_play => "bool"
  | auto_play_interval => "int"
  | auto_play_animation_duration => "int"
  | auto_play_curve => ""
  | enlarge_center_page => "bool"
  | enlarge_strategy => ""
  | enlarge_factor => "float"
  | page_snapping => "bool"
  | scroll_direction => ""
  | pause_auto_play_on_touch => "bool"
  | pause_auto_play_on_manual_navigate => "bool"
  | pause_auto_play_in_finite_scroll => "bool"
  | disable_center => "bool"
  | pad_ends => "bool"
  | clip_behavior => ""
  end.

(** The [def_value] the getter of a store-backed option passes to
    [_get_attr]; an enum getter passes none. *)
Definition def_value (o : t) : pyval :=
  match o with
  | height => VNone
  | aspect_ratio => VFloat (16 / 9)%float
  | viewport_fraction => VFloat 0.8%float
  | initial_page => VInt 0
  | enable_infinite_scroll => VBool true
  | disablegesture => VBool false
  | enable_indicator => VBool true
  | indicatorwidth => VNone
  | indicator_inactive_color => VNone
  | indicator_active_color => VNone
  | build_on_demand => VBool false
  | animate_to_closest => VBool true
  | reverse => VBool false
  | auto_play => VBool false
  | auto_play_interval => VInt 4000
  | auto_play_animation_duration => VInt 800
  | auto_play_curve => VNone
  | enlarge_center_page => VBool false
  | enlarge_strategy => VNone
  | enlarge_factor => VFloat 0.3%float
  | page_snapping => VBool true
  | scroll_direction => VNone
  | pause_auto_play_on_touch => VBool true
  | pause_auto_play_on_manual_navigate => VBool true
  | pause_auto_play_in_finite_scroll => VBool false
  | disable_center => VBool false
  | pad_ends => VBool true
  | clip_behavior => VNone
  end.

(** The options in the order in which the constructor assigns them
    (source lines 229-256). *)
Definition in_constructor_order : list t :=
  [height;
   aspect_ratio;
   viewport_fraction;
   initial_page;
   disablegesture;
   enable_indicator;
   indicatorwidth;
   indicator_active_color;
   indicator_inactive_color;
   build_on_demand;
   enable_infinite_scroll;
   animate_to_closest;
   reverse;
   auto_play;
   auto_play_interval;
   auto_play_animation_duration;
   auto_play_curve;
   enlarge_center_page;
   enlarge_strategy;
   enlarge_factor;
   page_snapping;
   scroll_direction;
   pause_auto_play_on_touch;
   pause_auto_play_on_manual_navigate;
   pause_auto_play_in_finite_scroll;
   disable_center;
   pad_ends;
   clip_behavior].

(** The entry of the store under the key of the option. *)
Definition stored (o : t) (self : Carousel.t) : option (pyval * bool) :=
  Control._Control__attrs (Carousel.base self) !! Py.lower (key o).
End Opt.

(** [Carousel(controls, height=None, aspect_ratio=None, ...)]: every
    option is passed [None]. *)
Definition all_none (controls : option (list ControlRef)) : CarouselArgs.t :=
  {| CarouselArgs.controls := controls;
     CarouselArgs.height := VNone;
     CarouselArgs.aspect_ratio := VNone;
     CarouselArgs.viewport_fraction := VNone;
     CarouselArgs.initial_page := VNone;
     CarouselArgs.enable_infinite_scroll := VNone;
     CarouselArgs.disablegesture := VNone;
     CarouselArgs.enable_indicator := VNone;
     CarouselArgs.indicatorwidth := VNone;
     CarouselArgs.indicator_inactive_color := VNone;
     CarouselArgs.indicator_active_color := VNone;
     CarouselArgs.build_on_demand := VNone;
     CarouselArgs.animate_to_closest := VNone;
     CarouselArgs.reverse := VNone;
     CarouselArgs.auto_play := VNone;
     CarouselArgs.auto_play_interval := VNone;
     CarouselArgs.auto_play_animation_duration := VNone;
     CarouselArgs.auto_play_curve := VNone;
     CarouselArgs.enlarge_center_page := VNone;
     CarouselArgs.enlarge_strategy := VNone;
     CarouselArgs.enlarge_factor := VNone;
     CarouselArgs.page_snapping := VNone;
     CarouselArgs.scroll_direction := VNone;
     CarouselArgs.pause_auto_play_on_touch := VNone;
     CarouselArgs.pause_auto_play_on_manual_navigate := VNone;
     CarouselArgs.pause_auto_play_in_finite_scroll := VNone;
     CarouselArgs.disable_center := VNone;
     CarouselArgs.pad_ends := VNone;
     CarouselArgs.clip_behavior := VNone;
     CarouselArgs.on_change := None;
     CarouselArgs.on_scrolled := None;
     CarouselArgs.visible := VNone;
     CarouselArgs.disabled := VNone |}.

(** C2 as the spec states it, for one option and one value: the value
    read back is the value set, up to [==]. *)
Definition reads_back (o : Opt.t) (v : pyval) (self : Carousel.t) : Prop :=
  exists v', Opt.get o (Opt.set o v self) = Ok v'
             /\ (v' = v \/ PyVal.eqb v' v = true).

(** C7 as the spec states it: an option whose attribute is absent from
    the store reads as the documented default. *)
Definition unset_reads_documented_default : Prop :=
  forall (o : Opt.t) (self : Carousel.t),
    Opt.stored o self = None -> Opt.get o self = Ok (Opt.documented_default o).

(** *** Event translation *)

(** The reason the spec assigns to a token: one of the three wire strings
    by exact match, and [MANUAL] for anything else. *)
Definition reason_of_token (token : string) : CarouselPageChangedReason.t :=
  if String.eqb token "timed" then CarouselPageChangedReason.TIMED
  else if String.eqb token "controller" then CarouselPageChangedReason.CONTROLLER
  else CarouselPageChangedReason.MANUAL.

(** The event object both classes pass on to [ControlEvent.__init__]. *)
Definition super_event (e : ControlEvent.t) : ControlEvent.t :=
  {| ControlEvent.target := ControlEvent.target e;
     ControlEvent.name := ControlEvent.name e;
     ControlEvent.data := ControlEvent.data e |}.

(** An incoming event with the payload [payload]. *)
Definition incoming (event_name payload : string) : ControlEvent.t :=
  {| ControlEvent.target := "carousel";
     ControlEvent.name := event_name;
     ControlEvent.data := Some payload |}.

(** C1 as the spec states it: translation succeeds on every payload. *)
Definition translation_never_raises : Prop :=
  forall e : ControlEvent.t,
    (exists ev, CarouselChangeEvent.__init__ e = Ok ev)
    /\ (exists ev, CarouselScrolledEvent.__init__ e = Ok ev).

(** *** Navigation commands *)

(** One call of a navigation method, with its arguments. *)
Inductive nav :=
| AnimateToPage (index duration : Z) (curve : curve_arg)
| NextPage (duration : Z) (curve : curve_arg)
| PreviousPage (duration : Z) (curve : curve_arg)
| JumpToPage (index : Z).

Definition call_nav (c : nav) (self : Carousel.t) : result unit * Carousel.t :=
  match c with
  | AnimateToPage index duration curve =>
      Carousel.animate_to_page index duration curve self
  | NextPage duration curve => Carousel.next_page duration curve self
  | PreviousPage duration curve => Carousel.previous_page duration curve self
  | JumpToPage index => Carousel.jump_to_page index self
  end.

(** The command string of the spec without its token: the target, the
    duration and the curve, each followed by a colon. *)
Definition command_head (c : nav) : string :=
  match c with
  | AnimateToPage index duration curve =>
      Py.str_of_int index +:+ ":" +:+ Py.str_of_int duration +:+ ":"
      +:+ Carousel.curve_id curve +:+ ":"
  | NextPage duration curve =>
      "__next:" +:+ Py.str_of_int duration +:+ ":"
      +:+ Carousel.curve_id curve +:+ ":"
  | PreviousPage duration curve =>
      "__prev:" +:+ Py.str_of_int duration +:+ ":"
      +:+ Carousel.curve_id curve +:+ ":"
  | JumpToPage index => "__jump:" +:+ Py.str_of_int index +:+ ":none:"
  end.

(** The value of the command attribute, as the host reads it. *)
Definition command (self : Carousel.t) : result pyval :=
  Carousel._get_attr self "__animateTo" VNone "string".

(** *** The life of an instance *)

(** What the application and the page do to a carousel after it is
    constructed: an assignment to an option, to [controls] or to a
    handler, a navigation call, and the page taking the control in or
    letting it go. *)
Inductive op :=
| Assign (o : Opt.t) (value : pyval)
| AssignControls (value : option (list ControlRef))
| AssignOnChange (handler : option callable)
| AssignOnScrolled (handler : option callable)
| Call (c : nav)
| SetPage (page : option Page).

(** The instance after one operation; an exception a navigation call
    raises is left to the caller and the instance lives on. *)
Definition step (x : op) (self : Carousel.t) : Carousel.t :=
  match x with
  | Assign o value => Opt.set o value self
  | AssignControls value => Carousel.set_controls value self
  | AssignOnChange handler => Carousel.set_on_change handler self
  | AssignOnScrolled handler => Carousel.set_on_scrolled handler self
  | Call c => (call_nav c self).2
  | SetPage page => Carousel.set_page page self
  end.

Definition run (ops : list op) (self : Carousel.t) : Carousel.t :=
  fold_left (fun s x => step x s) ops self.

(** The number of navigation calls among [ops]. *)
Fixpoint calls (ops : list op) : nat :=
  match ops with
  | [] => 0
  | Call _ :: ops' => S (calls ops')
  | _ :: ops' => calls ops'
  end.

(** The handler most recently assigned to [on_change] in [ops], and
    [current] when [ops] assigns none. *)
Fixpoint last_on_change (ops : list op) (current : option callable)
    : option callable :=
  match ops with
  | [] => current
  | AssignOnChange handler :: ops' => last_on_change ops' handler
  | _ :: ops' => last_on_change ops' current
  end.

Fixpoint last_on_scrolled (ops : list op) (current : option callable)
    : option callable :=
  match ops with
  | [] => current
  | AssignOnScrolled handler :: ops' => last_on_scrolled ops' handler
  | _ :: ops' => last_on_scrolled ops' current
  end.

(** The value most recently assigned to [controls] in [ops], and
    [current] when [ops] assigns none. *)
Fixpoint last_controls (ops : list op) (current : option (list ControlRef))
    : option (list ControlRef) :=
  match ops with
  | [] => current
  | AssignControls value :: ops' => last_controls ops' value
  | _ :: ops' => last_controls ops' current
  end.

(** *** Event handlers *)

(** What replace-on-set promises when a change event arrives: the
    handler in force is called once with the translated event, and no
    handler is called when none is in force. *)
Definition change_calls (handler : option callable) (e : ControlEvent.t)
    : result (list call) :=
  match handler with
  | Some f => let* ev := CarouselChangeEvent.__init__ e in Ok [CallChange f ev]
  | None => Ok []
  end.

Definition scrolled_calls (handler : option callable) (e : ControlEvent.t)
    : result (list call) :=
  match handler with
  | Some f => let* ev := CarouselScrolledEvent.__init__ e in Ok [CallScrolled f ev]
  | None => Ok []
  end.

(** The registration agrees with the two private attributes. *)
Definition registered (self : Carousel.t) : Prop :=
  Control._Control__event_handlers (Carousel.base self) !! "change"
  = Some (match Carousel.on_change self with
          | Some _ => Some (on_change_wrap (Carousel.on_change self))
          | None => None
          end)
  /\ Control._Control__event_handlers (Carousel.base self) !! "scrolled"
     = Some (match Carousel.on_scrolled self with
             | Some _ => Some (on_scrolled_wrap (Carousel.on_scrolled self))
             | None => None
             end).

(** *** The child list *)

(** The list the [controls] setter stores for [value]. *)
Definition list_or_empty (value : option (list ControlRef)) : list ControlRef :=
  match value with
  | Some l => l
  | None => []
  end.

(** *** Text of commands and payloads *)

(** [s] holds no colon, so [split(":")] leaves it whole. *)
Definition colon_free (s : string) : Prop :=
  Forall (fun c => c <> ":"%char) (list_ascii_of_string s).

(** The text [str(index) + ":" + reason.value]: a change payload that
    names [index] and [reason]. *)
Definition change_payload (index : Z) (reason : CarouselPageChangedReason.t)
    : string :=
  Py.str_of_int index +:+ ":" +:+ CarouselPageChangedReason.value reason.

(** The text after the last colon of [s]: the token of a command. *)
Definition last_segment (s : string) : string :=
  List.last (Py.split ":" s) "".

(** The state of a carousel that a command leaves behind: no command
    yet, or the head of some call followed by a token between 1 and the
    counter. *)
Definition command_in_step (self : Carousel.t) : Prop :=
  0 <= Carousel._Carousel__cmd_counter self
  /\ (command self = Ok VNone
      \/ exists c k,
           command self = Ok (VStr (command_head c +:+ Py.str_of_int k))
           /\ 1 <= k <= Carousel._Carousel__cmd_counter self).

(** A [bool], [int] or [float]: a value the store returns as it is. *)
Definition is_native (v : pyval) : bool :=
  match v with
  | VBool _ | VInt _ | VFloat _ => true
  | _ => false
  end.

(** The private attribute behind an enum option; [None] for the others,
    which have none. *)
Definition private_value (o : Opt.t) (self : Carousel.t) : pyval :=
  match o with
  | Opt.auto_play_curve => Carousel._Carousel__auto_play_curve self
  | Opt.enlarge_strategy => Carousel._Carousel__enlarge_strategy self
  | Opt.scroll_direction => Carousel._Carousel__scroll_direction self
  | Opt.clip_behavior => Carousel._Carousel__clip_behavior self
  | _ => VNone
  end.

(** *** The store after construction *)

(** A sequence of [_set_attr] calls, as key and value, applied in order. *)
Definition set_attrs (calls : list (string * pyval))
    (attrs : gmap string (pyval * bool)) : gmap string (pyval * bool) :=
  fold_left (fun m kv => Control._set_attr_internal kv.1 kv.2 true m) calls attrs.

(** The [_set_attr] calls of the constructor: [visible] and [disabled]
    by the base class, then one call by each option's setter. *)
Definition constructor_calls (a : CarouselArgs.t) : list (string * pyval) :=
  ("visible", CarouselArgs.visible a) :: ("disabled", CarouselArgs.disabled a)
  :: map (fun o => (Opt.key o, Opt.stored_form o (Opt.arg o a)))
       Opt.in_constructor_order.

(** The entry a first assignment of [value] leaves: none for [None]. *)
Definition first_entry (value : pyval) : option (pyval * bool) :=
  match value with
  | VNone => None
  | _ => Some (value, true)
  end.

(** * Properties *)

(** ** Event translation *)

Section EventTranslation.

Import ControlEvent.

Lemma try_reason_of_value (token : string) :
  try_except (CarouselPageChangedReason.of_value token) ValueError
    CarouselPageChangedReason.MANUAL
  = Ok (reason_of_token token).
Proof.
  unfold CarouselPageChangedReason.of_value, reason_of_token,
    CarouselPageChangedReason.members.
  cbn [List.find CarouselPageChangedReason.value].
  destruct (String.eqb_spec token "timed") as [-> | Ht]; [reflexivity|].
  destruct (String.eqb_spec "timed" token) as [E | _]; [congruence|].
  destruct (String.eqb_spec "manual" token) as [<- | _]; [reflexivity|].
  destruct (String.eqb_spec token "controller") as [-> | Hc]; [reflexivity|].
  destruct (String.eqb_spec "controller" token) as [E | _]; [congruence|].
  reflexivity.
Qed.

Lemma getitem_0 {A} (x : A) (l : list A) : Py.getitem (x :: l) 0 = Ok x.
Proof. reflexivity. Qed.

Lemma getitem_1 {A} (x y : A) (l : list A) : Py.getitem (x :: y :: l) 1 = Ok y.
Proof. reflexivity. Qed.

Lemma int_of_str_outcome (s : string) :
  (exists n, Py.int_of_str s = Ok n) \/ Py.int_of_str s = Raise ValueError.
Proof.
  unfold Py.int_of_str.
  destruct (Py.drop_underscores None (list_ascii_of_string s)); [|by right].
  destruct (Py.take_sign (Py.strip l)) as [neg body].
  destruct body; [by right|].
  destruct (forallb Py.isdigit (a :: body)); [left; eauto | by right].
Qed.

Lemma truthy_data_missing (e : ControlEvent.t) :
  data e = None \/ data e = Some "" -> truthy_data e = None.
Proof. unfold truthy_data. intros [-> | ->]; reflexivity. Qed.

Lemma truthy_data_present (e : ControlEvent.t) (s : string) :
  data e = Some s -> s <> "" -> truthy_data e = Some s.
Proof.
  unfold truthy_data. intros -> Hne.
  destruct (String.eqb_spec s ""); [contradiction | reflexivity].
Qed.

(** A payload without a colon whose only segment is an integer raises
    [IndexError]: [parts[1]] is evaluated inside the [try] block, whose
    handler catches [ValueError] only. *)
Lemma change_event_without_colon (e : ControlEvent.t) (s : string) (i : Z) :
  data e = Some s -> s <> "" -> Py.split ":" s = [s] ->
  Py.int_of_str s = Ok i ->
  CarouselChangeEvent.__init__ e = Raise IndexError.
Proof.
  intros Hdata Hne Hsplit Hint.
  unfold CarouselChangeEvent.__init__.
  rewrite (truthy_data_present e s Hdata Hne). cbv zeta.
  rewrite Hsplit, getitem_0. cbn [bind]. rewrite Hint. reflexivity.
Qed.

(** The payload ["3"] has one segment, an integer. *)
Lemma change_event_without_colon_witness :
  CarouselChangeEvent.__init__ (incoming "change" "3") = Raise IndexError.
Proof.
  apply (change_event_without_colon (incoming "change" "3") "3" 3);
    [reflexivity | discriminate | reflexivity | reflexivity].
Defined.

(** C1, refuted: a change payload whose first segment is not an integer
    raises [ValueError], a change payload without a colon raises
    [IndexError], and a scroll payload that is not a float literal raises
    [ValueError]; so translation does raise. *)
Lemma event_translation_raises :
  CarouselChangeEvent.__init__ (incoming "change" "abc:timed") = Raise ValueError
  /\ CarouselChangeEvent.__init__ (incoming "change" "3") = Raise IndexError
  /\ CarouselScrolledEvent.__init__ (incoming "scrolled" "abc") = Raise ValueError
  /\ ~ translation_never_raises.
Proof.
  repeat split; try reflexivity.
  intros H. destruct (H (incoming "change" "abc:timed")) as [[ev Hev] _].
  vm_compute in Hev. discriminate.
Qed.

(** A payload whose first segment [int()] rejects, and a scroll payload
    [float()] rejects, raise [ValueError]: neither conversion stands in a
    [try] block. *)
Lemma malformed_payload_raises (e : ControlEvent.t) (s part0 : string)
    (rest : list string) :
  data e = Some s -> s <> "" ->
  (Py.split ":" s = part0 :: rest ->
   Py.int_of_str part0 = Raise ValueError ->
   CarouselChangeEvent.__init__ e = Raise ValueError)
  /\ (Py.float_of_str s = Raise ValueError ->
      CarouselScrolledEvent.__init__ e = Raise ValueError).
Proof.
  intros Hdata Hne.
  pose proof (truthy_data_present e s Hdata Hne) as Htruthy.
  split.
  - intros Hsplit Hint. unfold CarouselChangeEvent.__init__.
    rewrite Htruthy. cbv zeta. rewrite Hsplit, getitem_0. cbn [bind].
    rewrite Hint. reflexivity.
  - intros Hfloat. unfold CarouselScrolledEvent.__init__.
    rewrite Htruthy, Hfloat. reflexivity.
Qed.

(** Neither [int()] nor [float()] accepts ["abc"]. *)
Lemma malformed_payload_raises_witness :
  CarouselChangeEvent.__init__ (incoming "change" "abc:timed") = Raise ValueError
  /\ CarouselScrolledEvent.__init__ (incoming "scrolled" "abc") = Raise ValueError.
Proof.
  split.
  - apply (proj1 (malformed_payload_raises (incoming "change" "abc:timed")
                    "abc:timed" "abc" ["timed"] eq_refl ltac:(discriminate)));
      reflexivity.
  - apply (proj2 (malformed_payload_raises (incoming "scrolled" "abc")
                    "abc" "abc" [] eq_refl ltac:(discriminate)));
      reflexivity.
Defined.

(** C1, amended: a missing or empty payload raises nothing and gives
    index 0, reason MANUAL and value 0.0.  A change payload whose first
    segment [int()] accepts and that has a second segment raises nothing
    and gives that integer and the reason of the second segment, [MANUAL]
    when it is no wire string.  A scroll payload [float()] accepts raises
    nothing and gives that value. *)
Theorem event_translation_amended (e : ControlEvent.t) :
  (data e = None \/ data e = Some "" ->
     CarouselChangeEvent.__init__ e
     = Ok {| CarouselChangeEvent.event := super_event e;
             CarouselChangeEvent.index := 0;
             CarouselChangeEvent.reason := CarouselPageChangedReason.MANUAL |}
     /\ CarouselScrolledEvent.__init__ e
        = Ok {| CarouselScrolledEvent.event := super_event e;
                CarouselScrolledEvent.value := 0%float |})
  /\ (forall s part0 part1 rest i,
        data e = Some s -> s <> "" ->
        Py.split ":" s = part0 :: part1 :: rest ->
        Py.int_of_str part0 = Ok i ->
        CarouselChangeEvent.__init__ e
        = Ok {| CarouselChangeEvent.event := super_event e;
                CarouselChangeEvent.index := i;
                CarouselChangeEvent.reason := reason_of_token part1 |})
  /\ (forall s x,
        data e = Some s -> s <> "" ->
        Py.float_of_str s = Ok x ->
        CarouselScrolledEvent.__init__ e
        = Ok {| CarouselScrolledEvent.event := super_event e;
                CarouselScrolledEvent.value := x |}).
Proof.
  split; [|split].
  - intros Hmissing. apply truthy_data_missing in Hmissing.
    unfold CarouselChangeEvent.__init__, CarouselScrolledEvent.__init__.
    rewrite Hmissing. split; reflexivity.
  - intros s part0 part1 rest i Hdata Hne Hsplit Hint.
    unfold CarouselChangeEvent.__init__.
    rewrite (truthy_data_present e s Hdata Hne). cbv zeta.
    rewrite Hsplit, getitem_0. cbn [bind].
    rewrite Hint, getitem_1. cbn [bind].
    rewrite try_reason_of_value. reflexivity.
  - intros s x Hdata Hne Hfloat.
    unfold CarouselScrolledEvent.__init__.
    rewrite (truthy_data_present e s Hdata Hne), Hfloat. reflexivity.
Qed.

(** The amended statement at the payload ["7:controller"]. *)
Lemma event_translation_amended_witness :
  CarouselChangeEvent.__init__ (incoming "change" "7:controller")
  = Ok {| CarouselChangeEvent.event := super_event (incoming "change" "7:controller");
          CarouselChangeEvent.index := 7;
          CarouselChangeEvent.reason := reason_of_token "controller" |}.
Proof.
  apply (proj1 (proj2 (event_translation_amended (incoming "change" "7:controller")))
           "7:controller" "7" "controller" []);
    [reflexivity | discriminate | reflexivity | reflexivity].
Defined.

(** C3: the three payloads of the spec's examples. *)
Theorem change_event_examples (target name : string) :
  let e payload := {| target := target; name := name; data := Some payload |} in
  CarouselChangeEvent.__init__ (e "3:timed")
  = Ok {| CarouselChangeEvent.event := e "3:timed";
          CarouselChangeEvent.index := 3;
          CarouselChangeEvent.reason := CarouselPageChangedReason.TIMED |}
  /\ CarouselChangeEvent.__init__ (e "2:bogus")
     = Ok {| CarouselChangeEvent.event := e "2:bogus";
             CarouselChangeEvent.index := 2;
             CarouselChangeEvent.reason := CarouselPageChangedReason.MANUAL |}
  /\ CarouselChangeEvent.__init__ (e "")
     = Ok {| CarouselChangeEvent.event := e "";
             CarouselChangeEvent.index := 0;
             CarouselChangeEvent.reason := CarouselPageChangedReason.MANUAL |}.
Proof. repeat split. Qed.

End EventTranslation.

(** ** The attribute store *)

Section AttributeStore.

Implicit Types (attrs : gmap string (pyval * bool)) (self : Carousel.t).

Lemma eqb_VStr (v : pyval) (s : string) :
  PyVal.eqb v (VStr s) = true -> v = VStr s.
Proof.
  destruct v; simpl; try discriminate.
  intros H. apply String.eqb_eq in H. by subst.
Qed.

(** After a [str] is assigned, the store holds that [str]. *)
Lemma set_attr_internal_str (name s : string) (dirty : bool) attrs :
  fst <$> (Control._set_attr_internal name (VStr s) dirty attrs !! Py.lower name)
  = Some (VStr s).
Proof.
  unfold Control._set_attr_internal.
  destruct (attrs !! Py.lower name) as [[orig d]|] eqn:Hlook.
  - cbn [fst]. destruct (PyVal.eqb orig (VStr s)) eqn:Heq; cbn [negb].
    + apply eqb_VStr in Heq. subst orig. by rewrite Hlook.
    + by rewrite lookup_insert_eq.
  - by rewrite lookup_insert_eq.
Qed.

(** Assignment leaves the other keys alone. *)
Lemma set_attr_internal_other (name k : string) (v : pyval) (dirty : bool) attrs :
  k <> Py.lower name ->
  Control._set_attr_internal name v dirty attrs !! k = attrs !! k.
Proof.
  intros Hne. unfold Control._set_attr_internal.
  destruct (attrs !! Py.lower name) as [[orig d]|], v; cbn [fst]; try done;
    try (by rewrite lookup_insert_ne);
    destruct (negb _); try done; by rewrite lookup_insert_ne.
Qed.

(** [update] changes no stored value. *)
Lemma update_value (c : Control.t) (k : string) :
  fst <$> (Control._Control__attrs (Control.update c).2 !! k)
  = fst <$> (Control._Control__attrs c !! k).
Proof.
  unfold Control.update. destruct (Control._Control__page c); [|done].
  cbn. rewrite lookup_fmap. by destruct (Control._Control__attrs c !! k).
Qed.

(** What [_get_attr] returns depends on the value stored, not on the
    dirty flag. *)
Lemma get_attr_value (c : Control.t) (name : string) (v def_value : pyval)
    (data_type : string) :
  fst <$> (Control._Control__attrs c !! Py.lower name) = Some v ->
  Control._get_attr c name def_value data_type
  = Control._get_attr
      {| Control._Control__attrs := {[ Py.lower name := (v, true) ]};
         Control._Control__event_handlers := ∅;
         Control._Control__page := None |} name def_value data_type.
Proof.
  intros H. unfold Control._get_attr. cbn [Control._Control__attrs].
  rewrite lookup_singleton_eq.
  destruct (Control._Control__attrs c !! Py.lower name) as [[v' d]|];
    [|discriminate].
  cbn in H. injection H as ->. reflexivity.
Qed.

(** Reading a stored [str] back as a string gives it unchanged. *)
Lemma get_attr_string (c : Control.t) (name s : string) (def_value : pyval) :
  fst <$> (Control._Control__attrs c !! Py.lower name) = Some (VStr s) ->
  Control._get_attr c name def_value "string" = Ok (VStr s).
Proof.
  intros H. rewrite (get_attr_value _ _ _ _ _ H).
  unfold Control._get_attr. cbn [Control._Control__attrs].
  by rewrite lookup_singleton_eq.
Qed.

(** An absent key reads as the default. *)
Lemma get_attr_unset (c : Control.t) (name : string) (def_value : pyval)
    (data_type : string) :
  Control._Control__attrs c !! Py.lower name = None ->
  Control._get_attr c name def_value data_type = Ok def_value.
Proof. intros H. unfold Control._get_attr. by rewrite H. Qed.

(** The keys of the source are the keys of the interface table. *)
Lemma keys_match_table (o : Opt.t) : Opt.key o = Opt.documented_key o.
Proof. destruct o; reflexivity. Qed.

(** Assigning an option leaves the command attribute as it is. *)
Lemma assign_keeps_command (o : Opt.t) (value : pyval) self :
  Carousel._get_attr (Opt.set o value self) "__animateTo" VNone "string"
  = Carousel._get_attr self "__animateTo" VNone "string".
Proof.
  unfold Carousel._get_attr, Control._get_attr.
  replace (Control._Control__attrs (Carousel.base (Opt.set o value self))
             !! Py.lower "__animateTo")
    with (Control._Control__attrs (Carousel.base self) !! Py.lower "__animateTo");
    [reflexivity|].
  symmetry. destruct o; apply set_attr_internal_other; discriminate.
Qed.

(** A stored [str] read with [data_type="bool"] is compared with [true]. *)
Lemma get_attr_bool_of_str (c : Control.t) (name s : string) (def_value : pyval) :
  fst <$> (Control._Control__attrs c !! Py.lower name) = Some (VStr s) ->
  Control._get_attr c name def_value "bool"
  = Ok (VBool (String.eqb (Py.lower s) "true")).
Proof.
  intros H. rewrite (get_attr_value _ _ _ _ _ H).
  unfold Control._get_attr. cbn [Control._Control__attrs].
  by rewrite lookup_singleton_eq.
Qed.

(** A stored [str] read with [data_type="int"] goes through [int()]. *)
Lemma get_attr_int_of_str (c : Control.t) (name s : string) (def_value : pyval) :
  fst <$> (Control._Control__attrs c !! Py.lower name) = Some (VStr s) ->
  Control._get_attr c name def_value "int"
  = (let* n := Py.int_of_str s in Ok (VInt n)).
Proof.
  intros H. rewrite (get_attr_value _ _ _ _ _ H).
  unfold Control._get_attr. cbn [Control._Control__attrs].
  by rewrite lookup_singleton_eq.
Qed.

(** A [bool], [int] or [float] that is assigned is read back as it is,
    or as the equal value the store already held, whatever [data_type]. *)
Lemma get_set_native (c : Control.t) (name : string) (v def_value : pyval)
    (data_type : string) :
  match v with VBool _ | VInt _ | VFloat _ => True | _ => False end ->
  exists v',
    Control._get_attr (Control._set_attr name v c) name def_value data_type = Ok v'
    /\ (v' = v \/ PyVal.eqb v' v = true).
Proof.
  intros Hv.
  unfold Control._get_attr, Control._set_attr, Control.with_attrs,
    Control._set_attr_internal.
  cbn [Control._Control__attrs].
  destruct (Control._Control__attrs c !! Py.lower name) as [[orig d]|] eqn:Hlook.
  - cbn [fst].
    destruct (PyVal.eqb orig match v with VNone => VStr "" | _ => v end) eqn:Heq;
      cbn [negb].
    + destruct v; try contradiction; rewrite Hlook; cbn [fst];
        destruct orig; try discriminate Heq; eauto.
    + destruct v; try contradiction; rewrite lookup_insert_eq; cbn [fst]; eauto.
  - destruct v; try contradiction; rewrite lookup_insert_eq; cbn [fst]; eauto.
Qed.

(** Every option that is not a color reads back what was set, for every
    value of its documented type. *)
Lemma typed_option_reads_back (o : Opt.t) (v : pyval) (self : Carousel.t) :
  Opt.documented_type o <> Opt.TColor ->
  Opt.has_type (Opt.documented_type o) v = true ->
  reads_back o v self.
Proof.
  intros Hcolor Htype. unfold reads_back.
  destruct o; try (exfalso; apply Hcolor; reflexivity);
    destruct v; try discriminate Htype;
    first [ apply get_set_native; exact I
          | eexists; split; [reflexivity | left; reflexivity] ].
Qed.

(** C2, at the color options: a color string read back through
    [indicator_active_color] is a [bool], and through
    [indicator_inactive_color] it is an [int] or [ValueError].  For
    ["red"] the first is [False] and the second raises.  Neither getter
    returns the color that was set, for any color string. *)
Theorem color_options_read_back (self : Carousel.t) (color : string) :
  Carousel.indicator_active_color
    (Carousel.set_indicator_active_color (VStr color) self)
  = Ok (VBool (String.eqb (Py.lower color) "true"))
  /\ Carousel.indicator_inactive_color
       (Carousel.set_indicator_inactive_color (VStr color) self)
     = (let* n := Py.int_of_str color in Ok (VInt n))
  /\ Carousel.indicator_active_color
       (Carousel.set_indicator_active_color (VStr "red") self)
     = Ok (VBool false)
  /\ Carousel.indicator_inactive_color
       (Carousel.set_indicator_inactive_color (VStr "red") self)
     = Raise ValueError
  /\ ~ reads_back Opt.indicator_active_color (VStr color) self
  /\ ~ reads_back Opt.indicator_inactive_color (VStr color) self.
Proof.
  assert (Hactive : forall c,
    Carousel.indicator_active_color
      (Carousel.set_indicator_active_color (VStr c) self)
    = Ok (VBool (String.eqb (Py.lower c) "true"))).
  { intros c. apply get_attr_bool_of_str, set_attr_internal_str. }
  assert (Hinactive : forall c,
    Carousel.indicator_inactive_color
      (Carousel.set_indicator_inactive_color (VStr c) self)
    = (let* n := Py.int_of_str c in Ok (VInt n))).
  { intros c. apply get_attr_int_of_str, set_attr_internal_str. }
  split; [apply Hactive|]. split; [apply Hinactive|].
  split; [rewrite Hactive; reflexivity|].
  split; [rewrite Hinactive; reflexivity|].
  split.
  - intros (v' & Hget & Hsame). cbn [Opt.get Opt.set] in Hget.
    rewrite Hactive in Hget. injection Hget as <-.
    destruct Hsame as [E | E]; discriminate E.
  - intros (v' & Hget & Hsame). cbn [Opt.get Opt.set] in Hget.
    rewrite Hinactive in Hget.
    destruct (int_of_str_outcome color) as [[n Hn] | Hn];
      rewrite Hn in Hget; cbn [bind] in Hget; [|discriminate Hget].
    injection Hget as <-. destruct Hsame as [E | E]; discriminate E.
Qed.

(** C7, refuted: a carousel constructed with [clip_behavior=None] has no
    [clipBehavior] attribute, and its getter returns [None], not the
    documented [HARD_EDGE]. *)
Lemma unset_enum_option_reads_none :
  let self := Carousel.__init__ (all_none (Some [])) in
  Opt.stored Opt.clip_behavior self = None
  /\ Opt.get Opt.clip_behavior self = Ok VNone
  /\ Opt.documented_default Opt.clip_behavior = VClipBehavior ClipBehavior.HARD_EDGE
  /\ ~ unset_reads_documented_default.
Proof.
  cbv zeta. split; [|split; [|split]].
  - vm_compute. reflexivity.
  - vm_compute. reflexivity.
  - reflexivity.
  - intros H.
    assert (Hunset : Opt.stored Opt.clip_behavior
                       (Carousel.__init__ (all_none (Some []))) = None)
      by (vm_compute; reflexivity).
    assert (Hget : Opt.get Opt.clip_behavior
                     (Carousel.__init__ (all_none (Some []))) = Ok VNone)
      by (vm_compute; reflexivity).
    specialize (H Opt.clip_behavior _ Hunset).
    rewrite Hget in H. discriminate H.
Qed.

(** C7, amended: for every option that is not one of the four enum
    options, an attribute absent from the store reads as the documented
    default.  An enum option reads as the value last assigned, and every
    option of a carousel constructed with the defaults of the signature
    reads as the documented default. *)
Theorem unset_option_reads_default (o : Opt.t) :
  (forall self,
     Opt.is_enum o = false -> Opt.stored o self = None ->
     Opt.get o self = Ok (Opt.documented_default o))
  /\ (forall self value,
       Opt.is_enum o = true -> Opt.get o (Opt.set o value self) = Ok value)
  /\ (forall controls,
       Opt.get o (Carousel.__init__ (CarouselArgs.defaults controls))
       = Ok (Opt.documented_default o)).
Proof.
  split; [|split].
  - intros self Henum Hunset.
    destruct o; try discriminate Henum;
      apply get_attr_unset; exact Hunset.
  - intros self value Henum.
    destruct o; try discriminate Henum; reflexivity.
  - intros controls. destruct o; vm_compute; reflexivity.
Qed.

(** The amended statement at [aspect_ratio], on a carousel constructed
    with [aspect_ratio=None]. *)
Lemma unset_option_reads_default_witness :
  Opt.get Opt.aspect_ratio (Carousel.__init__ (all_none (Some [])))
  = Ok (Opt.documented_default Opt.aspect_ratio).
Proof.
  apply (proj1 (unset_option_reads_default Opt.aspect_ratio)).
  - reflexivity.
  - vm_compute. reflexivity.
Defined.

End AttributeStore.

(** ** Navigation commands *)

Section Navigation.

Implicit Types (self : Carousel.t) (c : nav).

Lemma append_cons (x : ascii) (a b : string) :
  String x a +:+ b = String x (a +:+ b).
Proof. reflexivity. Qed.

Lemma append_assoc_r (a b c : string) : (a +:+ b) +:+ c = a +:+ b +:+ c.
Proof.
  induction a as [|x a IH]; [reflexivity|].
  by rewrite !append_cons, IH.
Qed.

Lemma append_cancel_l (p a b : string) : p +:+ a = p +:+ b -> a = b.
Proof.
  induction p as [|x p IH]; [done|].
  rewrite !append_cons. intros [= H]. auto.
Qed.

Lemma str_of_int_inj (a b : Z) : Py.str_of_int a = Py.str_of_int b -> a = b.
Proof.
  unfold Py.str_of_int. intros H. apply DecimalZ.to_int_inj.
  assert (Some (Z.to_int a) = Some (Z.to_int b)) as [= ->]; [|done].
  by rewrite <- !NilEmpty.isi, H.
Qed.

(** Writing a command and flushing it leaves that command in the store
    and the counter as it was. *)
Lemma write_command (text : string) self :
  let self' := (Carousel.update (Carousel._set_attr "__animateTo" (VStr text) self)).2 in
  command self' = Ok (VStr text)
  /\ Carousel._Carousel__cmd_counter self' = Carousel._Carousel__cmd_counter self.
Proof.
  cbv zeta. unfold Carousel.update.
  pose proof (update_value
                (Carousel.base (Carousel._set_attr "__animateTo" (VStr text) self))
                (Py.lower "__animateTo")) as Hupd.
  destruct (Control.update _) as [r b]. cbn [snd] in *.
  split; [|reflexivity].
  apply get_attr_string. cbn [Carousel.base Carousel.assign_base].
  rewrite Hupd. apply set_attr_internal_str.
Qed.

(** Every navigation method increments the counter by one and writes its
    head followed by the new counter. *)
Lemma call_nav_step c self :
  command (call_nav c self).2
  = Ok (VStr (command_head c
              +:+ Py.str_of_int (Carousel._Carousel__cmd_counter self + 1)))
  /\ Carousel._Carousel__cmd_counter (call_nav c self).2
     = Carousel._Carousel__cmd_counter self + 1.
Proof.
  destruct c; cbn [call_nav command_head];
    unfold Carousel.animate_to_page, Carousel.next_page,
      Carousel.previous_page, Carousel.jump_to_page, Carousel._next_cmd;
    cbv zeta; rewrite !append_assoc_r;
    match goal with
    | |- context [Carousel.update (Carousel._set_attr _ (VStr ?text) ?s)] =>
        destruct (write_command text s) as [Hcmd Hctr]
    end;
    (split; [exact Hcmd | rewrite Hctr; reflexivity]).
Qed.

(** Only a navigation call moves the counter. *)
Lemma step_counter (x : op) self :
  Carousel._Carousel__cmd_counter (step x self)
  = Carousel._Carousel__cmd_counter self + Z.of_nat (calls [x]).
Proof.
  destruct x as [o value | | | | c | ]; cbn [step calls];
    rewrite ?Z.add_0_r; try reflexivity.
  - destruct o; reflexivity.
  - apply call_nav_step.
Qed.

Lemma calls_cons (x : op) (ops : list op) :
  calls (x :: ops) = (calls [x] + calls ops)%nat.
Proof. destruct x; reflexivity. Qed.

(** After [ops], the counter has advanced by the number of calls. *)
Lemma run_counter (ops : list op) self :
  Carousel._Carousel__cmd_counter (run ops self)
  = Carousel._Carousel__cmd_counter self + Z.of_nat (calls ops).
Proof.
  revert self. induction ops as [|x ops IH]; intros self.
  - cbn [run fold_left calls]. lia.
  - change (run (x :: ops) self) with (run ops (step x self)).
    rewrite IH, step_counter, (calls_cons x ops). lia.
Qed.

Lemma init_counter (a : CarouselArgs.t) :
  Carousel._Carousel__cmd_counter (Carousel.__init__ a) = 0.
Proof. reflexivity. Qed.

(** The text [animate_to_page] writes, on any carousel. *)
Lemma animate_to_page_text self (index duration : Z) (curve : AnimateToCurve.t) :
  command (Carousel.animate_to_page index duration (Curve curve) self).2
  = Ok (VStr (Py.str_of_int index +:+ ":" +:+ Py.str_of_int duration +:+ ":"
              +:+ AnimateToCurve.value curve +:+ ":"
              +:+ Py.str_of_int (Carousel._Carousel__cmd_counter self + 1))).
Proof.
  destruct (call_nav_step (AnimateToPage index duration (Curve curve)) self)
    as [H _].
  cbn [call_nav command_head Carousel.curve_id] in H.
  rewrite !append_assoc_r in H. exact H.
Qed.

(** The text [jump_to_page] writes, on any carousel. *)
Lemma jump_to_page_text self (index : Z) :
  command (Carousel.jump_to_page index self).2
  = Ok (VStr ("__jump:" +:+ Py.str_of_int index +:+ ":none:"
              +:+ Py.str_of_int (Carousel._Carousel__cmd_counter self + 1))).
Proof.
  destruct (call_nav_step (JumpToPage index) self) as [H _].
  cbn [call_nav command_head] in H.
  rewrite !append_assoc_r in H. exact H.
Qed.

(** C4: [animate_to_page(index, duration, curve)] writes
    [<index>:<duration>:<curve wire string>:<token>] to [__animateTo],
    the token being the incremented counter; on a new carousel
    [animate_to_page(2, 500, EASE_IN)] writes ["2:500:easeIn:1"]. *)
Theorem animate_to_page_command self (index duration : Z)
    (curve : AnimateToCurve.t) :
  command (Carousel.animate_to_page index duration (Curve curve) self).2
  = Ok (VStr (Py.str_of_int index +:+ ":" +:+ Py.str_of_int duration +:+ ":"
              +:+ AnimateToCurve.value curve +:+ ":"
              +:+ Py.str_of_int (Carousel._Carousel__cmd_counter self + 1)))
  /\ (forall a,
       command (Carousel.animate_to_page 2 500 (Curve AnimateToCurve.EASE_IN)
                  (Carousel.__init__ a)).2
       = Ok (VStr "2:500:easeIn:1")).
Proof.
  split; [apply animate_to_page_text|].
  intros a. rewrite animate_to_page_text, init_counter. reflexivity.
Qed.

(** C5: [jump_to_page(index)] writes [__jump:<index>:none:<token>] to
    [__animateTo]; on a new carousel [jump_to_page(5)] writes
    ["__jump:5:none:1"]. *)
Theorem jump_to_page_command self (index : Z) :
  command (Carousel.jump_to_page index self).2
  = Ok (VStr ("__jump:" +:+ Py.str_of_int index +:+ ":none:"
              +:+ Py.str_of_int (Carousel._Carousel__cmd_counter self + 1)))
  /\ (forall a,
       command (Carousel.jump_to_page 5 (Carousel.__init__ a)).2
       = Ok (VStr "__jump:5:none:1")).
Proof.
  split; [apply jump_to_page_text|].
  intros a. rewrite jump_to_page_text, init_counter. reflexivity.
Qed.

(** C6: two calls of [next_page] in a row with the same arguments write
    the same head followed by two different tokens, the counter being
    larger at the second call; the two command strings differ. *)
Theorem next_page_twice_distinct self (duration : Z) (curve : curve_arg) :
  let first := (Carousel.next_page duration curve self).2 in
  let second := (Carousel.next_page duration curve first).2 in
  let head := "__next:" +:+ Py.str_of_int duration +:+ ":"
              +:+ Carousel.curve_id curve +:+ ":" in
  let n := Carousel._Carousel__cmd_counter self in
  command first = Ok (VStr (head +:+ Py.str_of_int (n + 1)))
  /\ command second = Ok (VStr (head +:+ Py.str_of_int (n + 2)))
  /\ Carousel._Carousel__cmd_counter self
     < Carousel._Carousel__cmd_counter first
     < Carousel._Carousel__cmd_counter second
  /\ head +:+ Py.str_of_int (n + 1) <> head +:+ Py.str_of_int (n + 2)
  /\ command first <> command second.
Proof.
  cbv zeta.
  destruct (call_nav_step (NextPage duration curve) self) as [H1 C1].
  destruct (call_nav_step (NextPage duration curve)
              (Carousel.next_page duration curve self).2) as [H2 C2].
  cbn [call_nav command_head] in *. rewrite C1 in H2, C2.
  replace (Carousel._Carousel__cmd_counter self + 1 + 1)
    with (Carousel._Carousel__cmd_counter self + 2) in H2, C2 by lia.
  assert (Hne : ("__next:" +:+ Py.str_of_int duration +:+ ":"
                 +:+ Carousel.curve_id curve +:+ ":")
                +:+ Py.str_of_int (Carousel._Carousel__cmd_counter self + 1)
                <> ("__next:" +:+ Py.str_of_int duration +:+ ":"
                    +:+ Carousel.curve_id curve +:+ ":")
                   +:+ Py.str_of_int (Carousel._Carousel__cmd_counter self + 2)).
  { intros E. apply append_cancel_l, str_of_int_inj in E. lia. }
  repeat split; try assumption; try lia.
  rewrite H1, H2. intros E. apply Hne.
  exact (f_equal (fun r => match r with Ok (VStr t) => t | _ => "" end) E).
Qed.

(** C9: the counter of a new carousel is 0; each of the four navigation
    methods increments it by exactly one and nothing else moves it; so
    the n-th navigation call in the life of a carousel, whatever the
    methods called and whatever happened in between, writes its command
    with the token n, the first with 1. *)
Theorem nth_command_carries_token_n (a : CarouselArgs.t) (ops : list op) c :
  let before := run ops (Carousel.__init__ a) in
  let n := Z.of_nat (calls ops) + 1 in
  Carousel._Carousel__cmd_counter (Carousel.__init__ a) = 0
  /\ (forall s c', Carousel._Carousel__cmd_counter (call_nav c' s).2
                  = Carousel._Carousel__cmd_counter s + 1)
  /\ command (call_nav c before).2
     = Ok (VStr (command_head c +:+ Py.str_of_int n))
  /\ Carousel._Carousel__cmd_counter (call_nav c before).2 = n.
Proof.
  cbv zeta. split; [apply init_counter|].
  split; [intros s c'; apply call_nav_step|].
  destruct (call_nav_step c (run ops (Carousel.__init__ a))) as [H C].
  rewrite run_counter, init_counter in H, C.
  rewrite Z.add_0_l in H, C. by split.
Qed.

End Navigation.

(** ** Event handlers *)

Section Handlers.

Implicit Types (self : Carousel.t) (handler : option callable).

Lemma init_handlers (a : CarouselArgs.t) :
  Control._Control__event_handlers (Carousel.base (Carousel.__init__ a))
  = <["scrolled" := match CarouselArgs.on_scrolled a with
                    | Some _ => Some (on_scrolled_wrap (CarouselArgs.on_scrolled a))
                    | None => None
                    end]>
      (<["change" := match CarouselArgs.on_change a with
                     | Some _ => Some (on_change_wrap (CarouselArgs.on_change a))
                     | None => None
                     end]> ∅)
  /\ Carousel.on_change (Carousel.__init__ a) = CarouselArgs.on_change a
  /\ Carousel.on_scrolled (Carousel.__init__ a) = CarouselArgs.on_scrolled a.
Proof. repeat split. Qed.

Lemma init_registered (a : CarouselArgs.t) : registered (Carousel.__init__ a).
Proof.
  destruct (init_handlers a) as (Hh & Hc & Hs).
  unfold registered. rewrite Hh, Hc, Hs.
  split.
  - rewrite lookup_insert_ne by done. by rewrite lookup_insert_eq.
  - by rewrite lookup_insert_eq.
Qed.

(** [update] touches neither the registration nor a private attribute. *)
Lemma update_frame self :
  Control._Control__event_handlers (Carousel.base (Carousel.update self).2)
  = Control._Control__event_handlers (Carousel.base self)
  /\ Carousel.on_change (Carousel.update self).2 = Carousel.on_change self
  /\ Carousel.on_scrolled (Carousel.update self).2 = Carousel.on_scrolled self
  /\ Carousel.controls (Carousel.update self).2 = Carousel.controls self.
Proof.
  unfold Carousel.update, Control.update.
  destruct (Control._Control__page (Carousel.base self)); by repeat split.
Qed.

(** A navigation call touches neither. *)
Lemma call_nav_frame c self :
  Control._Control__event_handlers (Carousel.base (call_nav c self).2)
  = Control._Control__event_handlers (Carousel.base self)
  /\ Carousel.on_change (call_nav c self).2 = Carousel.on_change self
  /\ Carousel.on_scrolled (call_nav c self).2 = Carousel.on_scrolled self
  /\ Carousel.controls (call_nav c self).2 = Carousel.controls self.
Proof.
  destruct c; cbn [call_nav];
    unfold Carousel.animate_to_page, Carousel.next_page,
      Carousel.previous_page, Carousel.jump_to_page, Carousel._next_cmd;
    cbv zeta;
    match goal with
    | |- context [Carousel.update ?s] =>
        destruct (update_frame s) as (-> & -> & -> & ->)
    end; by repeat split.
Qed.

Lemma step_registered (x : op) self :
  registered self -> registered (step x self).
Proof.
  intros [Hc Hs]. unfold registered.
  destruct x as [o value | value | handler | handler | c | page]; cbn [step].
  - destruct o; split; assumption.
  - split; assumption.
  - split; [by apply lookup_insert_eq|].
    etrans; [apply lookup_insert_ne; done | exact Hs].
  - split; [|by apply lookup_insert_eq].
    etrans; [apply lookup_insert_ne; done | exact Hc].
  - destruct (call_nav_frame c self) as (-> & -> & -> & _). by split.
  - split; assumption.
Qed.

Lemma run_registered (ops : list op) self :
  registered self -> registered (run ops self).
Proof.
  revert self. induction ops as [|x ops IH]; intros self H; [exact H|].
  apply IH, step_registered, H.
Qed.

(** The two private attributes hold the handlers assigned last. *)
Lemma run_handlers (ops : list op) self :
  Carousel.on_change (run ops self)
  = last_on_change ops (Carousel.on_change self)
  /\ Carousel.on_scrolled (run ops self)
     = last_on_scrolled ops (Carousel.on_scrolled self).
Proof.
  revert self. induction ops as [|x ops IH]; intros self; [by split|].
  change (run (x :: ops) self) with (run ops (step x self)).
  destruct (IH (step x self)) as [-> ->].
  destruct x as [o value | value | handler | handler | c | page];
    cbn [step last_on_change last_on_scrolled]; try (by split).
  - destruct o; by split.
  - destruct (call_nav_frame c self) as (_ & -> & -> & _). by split.
Qed.

(** With the registration in agreement, an event reaches exactly the
    handler the private attribute names. *)
Lemma dispatch_registered self (target : string) (data : option string) :
  registered self ->
  Carousel.dispatch self
    {| ControlEvent.target := target; ControlEvent.name := "change";
       ControlEvent.data := data |}
  = change_calls (Carousel.on_change self)
      {| ControlEvent.target := target; ControlEvent.name := "change";
         ControlEvent.data := data |}
  /\ Carousel.dispatch self
       {| ControlEvent.target := target; ControlEvent.name := "scrolled";
          ControlEvent.data := data |}
     = scrolled_calls (Carousel.on_scrolled self)
         {| ControlEvent.target := target; ControlEvent.name := "scrolled";
            ControlEvent.data := data |}.
Proof.
  intros [Hc Hs]. unfold Carousel.dispatch, Control.dispatch.
  cbn [ControlEvent.name]. rewrite Hc, Hs.
  destruct (Carousel.on_change self), (Carousel.on_scrolled self); by split.
Qed.

(** C8: at any point of the life of a carousel, each getter returns the
    handler assigned last, an incoming event calls that handler and no
    other, once, and calls none when [None] was assigned last. *)
Theorem handler_replace_on_set (a : CarouselArgs.t) (ops : list op)
    (target : string) (data : option string) :
  let self := run ops (Carousel.__init__ a) in
  let change :=
    {| ControlEvent.target := target; ControlEvent.name := "change";
       ControlEvent.data := data |} in
  let scrolled :=
    {| ControlEvent.target := target; ControlEvent.name := "scrolled";
       ControlEvent.data := data |} in
  Carousel.on_change self = last_on_change ops (CarouselArgs.on_change a)
  /\ Carousel.on_scrolled self = last_on_scrolled ops (CarouselArgs.on_scrolled a)
  /\ Carousel.dispatch self change
     = change_calls (last_on_change ops (CarouselArgs.on_change a)) change
  /\ Carousel.dispatch self scrolled
     = scrolled_calls (last_on_scrolled ops (CarouselArgs.on_scrolled a)) scrolled.
Proof.
  cbv zeta.
  destruct (init_handlers a) as (_ & Hc0 & Hs0).
  destruct (run_handlers ops (Carousel.__init__ a)) as [Hc Hs].
  rewrite Hc0 in Hc. rewrite Hs0 in Hs.
  destruct (dispatch_registered (run ops (Carousel.__init__ a)) target data
              (run_registered ops _ (init_registered a)))
    as [Hdc Hds].
  rewrite Hc in Hdc. rewrite Hs in Hds. by repeat split.
Qed.

End Handlers.

(** ** The child list *)

Section Children.

Implicit Types (self : Carousel.t).

Lemma init_controls (a : CarouselArgs.t) :
  Carousel.controls (Carousel.__init__ a)
  = Some (list_or_empty (CarouselArgs.controls a)).
Proof. reflexivity. Qed.

(** Only an assignment to [controls] changes the stored list. *)
Lemma run_controls (ops : list op) self (current : option (list ControlRef)) :
  Carousel.controls self = Some (list_or_empty current) ->
  Carousel.controls (run ops self)
  = Some (list_or_empty (last_controls ops current)).
Proof.
  revert self current.
  induction ops as [|x ops IH]; intros self current H; [exact H|].
  change (run (x :: ops) self) with (run ops (step x self)).
  destruct x as [o value | value | handler | handler | c | page];
    cbn [last_controls]; apply IH; cbn [step]; try exact H.
  - destruct o; exact H.
  - reflexivity.
  - destruct (call_nav_frame c self) as (_ & _ & _ & ->). exact H.
Qed.

(** C10: at any point of the life of a carousel, the getter and
    [_get_children] return a list, never [None]: the list assigned last,
    or the empty list when [None] was assigned last. *)
Theorem controls_never_none (a : CarouselArgs.t) (ops : list op) :
  let self := run ops (Carousel.__init__ a) in
  let children := list_or_empty (last_controls ops (CarouselArgs.controls a)) in
  Carousel.controls self = Some children
  /\ Carousel._get_children self = Some children
  /\ (forall s, Carousel.controls (Carousel.set_controls None s) = Some []).
Proof.
  cbv zeta.
  pose proof (run_controls ops _ (CarouselArgs.controls a) (init_controls a)) as H.
  by repeat split.
Qed.

End Children.

(** ** Decimal text *)

Section Decimal.

Implicit Types (d : Decimal.uint) (l : list ascii).

Let chars d : list ascii := list_ascii_of_string (NilEmpty.string_of_uint d).
Let shift (acc : Z) (c : ascii) : Z := 10 * acc + Py.digit_value c.

Lemma uint_chars_digits d : forallb Py.isdigit (chars d) = true.
Proof. induction d; [reflexivity | exact IHd ..]. Qed.

Lemma uint_chars_nonnil d : d <> Decimal.Nil -> chars d <> [].
Proof. destruct d; [congruence | discriminate ..]. Qed.

Lemma uint_value_acc d (acc : positive) :
  fold_left shift (chars d) (Z.pos acc) = Z.pos (Pos.of_uint_acc d acc).
Proof.
  revert acc. induction d; intros acc; [reflexivity | ..];
    cbn [chars NilEmpty.string_of_uint list_ascii_of_string fold_left
         Pos.of_uint_acc];
    fold (chars d);
    match goal with
    | |- fold_left shift (chars d) ?x = Z.pos (Pos.of_uint_acc d ?y) =>
        replace x with (Z.pos y) by (unfold shift; vm_compute Py.digit_value; lia)
    end; apply IHd.
Qed.

Lemma uint_value d :
  fold_left shift (chars d) 0 = Z.of_N (Pos.of_uint d).
Proof.
  induction d; [reflexivity | exact IHd | ..];
    cbn [chars NilEmpty.string_of_uint list_ascii_of_string fold_left
         Pos.of_uint];
    fold (chars d); apply uint_value_acc.
Qed.

Lemma skip_head (p : ascii -> bool) l :
  match l with c :: _ => p c = false | [] => True end -> Py.skip p l = l.
Proof. destruct l as [|c l]; [done|]. cbn [Py.skip]. by intros ->. Qed.

Lemma digit_not_space (c : ascii) : Py.isdigit c = true -> Py.isspace c = false.
Proof.
  unfold Py.isdigit, Py.isspace. intros H.
  apply andb_true_iff in H as [H1 H2].
  apply N.leb_le in H1, H2.
  repeat match goal with
         | |- context [(?a <=? ?b)%N] => destruct (N.leb_spec a b)
         | |- context [(?a =? ?b)%N] => destruct (N.eqb_spec a b)
         end; try reflexivity; lia.
Qed.

Lemma digit_not_underscore (c : ascii) :
  Py.isdigit c = true -> Ascii.eqb c "_" = false.
Proof.
  intros H. destruct (Ascii.eqb_spec c "_") as [-> |]; [discriminate H | done].
Qed.

(** A literal without underscores passes the underscore check unchanged. *)
Lemma drop_underscores_none (prev : option ascii) l :
  forallb (fun c => negb (Ascii.eqb c "_")) l = true ->
  Py.drop_underscores prev l = Some l.
Proof.
  revert prev. induction l as [|c l IH]; intros prev H; [reflexivity|].
  cbn [forallb] in H. apply andb_true_iff in H as [Hc Hl].
  cbn [Py.drop_underscores]. apply negb_true_iff in Hc. rewrite Hc.
  by rewrite IH.
Qed.

Lemma digits_no_underscore l :
  forallb Py.isdigit l = true ->
  forallb (fun c => negb (Ascii.eqb c "_")) l = true.
Proof.
  induction l as [|c l IH]; [done|]. cbn [forallb].
  intros H. apply andb_true_iff in H as [Hc Hl].
  by rewrite (digit_not_underscore c Hc), IH.
Qed.

(** Digits have no blank at either end. *)
Lemma strip_digits l : forallb Py.isdigit l = true -> Py.strip l = l.
Proof.
  intros H. unfold Py.strip, Py.lstrip.
  assert (Hskip : forall l', forallb Py.isdigit l' = true ->
                             Py.skip Py.isspace l' = l').
  { intros l' Hl'. apply skip_head. destruct l' as [|c l']; [done|].
    cbn [forallb] in Hl'. apply andb_true_iff in Hl' as [Hc _].
    by apply digit_not_space. }
  rewrite (Hskip l H), Hskip, rev_involutive; [done|].
  rewrite forallb_forall in *. intros c Hc. apply H. by apply in_rev.
Qed.

Lemma strip_minus_digits l :
  forallb Py.isdigit l = true -> l <> [] ->
  Py.strip ("-"%char :: l) = "-"%char :: l.
Proof.
  intros H Hne. unfold Py.strip, Py.lstrip.
  rewrite (skip_head _ ("-"%char :: l)) by reflexivity.
  rewrite skip_head, rev_involutive; [done|].
  cbn [rev]. destruct (rev l) as [|c l'] eqn:Hrev.
  { apply (f_equal (@rev ascii)) in Hrev. rewrite rev_involutive in Hrev.
    contradiction. }
  cbn [app]. apply digit_not_space.
  rewrite forallb_forall in H. apply H, in_rev. rewrite Hrev. by left.
Qed.

Lemma take_sign_digits l :
  forallb Py.isdigit l = true -> Py.take_sign l = (false, l).
Proof.
  destruct l as [|c l]; [done|]. cbn [forallb Py.take_sign].
  intros H. apply andb_true_iff in H as [Hc _].
  destruct (Ascii.eqb_spec c "-") as [-> |]; [discriminate Hc|].
  destruct (Ascii.eqb_spec c "+") as [-> |]; [discriminate Hc | done].
Qed.

(** [int(str(n)) == n]. *)
Lemma int_of_str_of_int (n : Z) : Py.int_of_str (Py.str_of_int n) = Ok n.
Proof.
  unfold Py.int_of_str, Py.str_of_int.
  pose proof (DecimalZ.of_to n) as Hn.
  destruct (Z.to_int n) as [d | d] eqn:Hd.
  - assert (Hnil : d <> Decimal.Nil).
    { intros ->. destruct n as [|p|p]; try discriminate Hd.
      injection Hd as Hd. by apply DecimalPos.Unsigned.to_uint_nonnil in Hd. }
    cbn [NilEmpty.string_of_int]. fold (chars d).
    pose proof (uint_chars_digits d) as Hdig.
    rewrite (drop_underscores_none _ _ (digits_no_underscore _ Hdig)).
    rewrite (strip_digits _ Hdig), (take_sign_digits _ Hdig).
    pose proof (uint_chars_nonnil d Hnil) as Hne.
    destruct (chars d) as [|c l] eqn:Hc; [contradiction|].
    rewrite Hdig. f_equal. rewrite <- Hn. cbn [Z.of_int]. unfold Z.of_uint.
    rewrite <- uint_value. fold (chars d). by rewrite Hc.
  - assert (Hnil : d <> Decimal.Nil).
    { intros ->. destruct n as [|p|p]; try discriminate Hd.
      injection Hd as Hd. by apply DecimalPos.Unsigned.to_uint_nonnil in Hd. }
    cbn [NilEmpty.string_of_int list_ascii_of_string]. fold (chars d).
    pose proof (uint_chars_digits d) as Hdig.
    pose proof (uint_chars_nonnil d Hnil) as Hne.
    rewrite (drop_underscores_none None ("-"%char :: chars d))
      by (cbn [forallb]; rewrite (digits_no_underscore _ Hdig); reflexivity).
    rewrite (strip_minus_digits _ Hdig Hne).
    cbn [Py.take_sign]. change (Ascii.eqb "-" "-") with true. cbv iota.
    destruct (chars d) as [|c l] eqn:Hc; [contradiction|].
    rewrite Hdig. f_equal. rewrite <- Hn. cbn [Z.of_int]. unfold Z.of_uint.
    rewrite <- uint_value. fold (chars d). by rewrite Hc.
Qed.

End Decimal.

(** ** Segments *)

Section Segments.

Lemma colon_free_nil : colon_free "".
Proof. constructor. Qed.

Lemma colon_free_cons (c : ascii) (s : string) :
  colon_free (String c s) <-> c <> ":"%char /\ colon_free s.
Proof.
  unfold colon_free. cbn [list_ascii_of_string]. split.
  - intros H. by inversion_clear H.
  - intros [Hc Hs]. by constructor.
Qed.

Lemma colon_free_app (a b : string) :
  colon_free a -> colon_free b -> colon_free (a +:+ b).
Proof.
  intros Ha Hb. induction a as [|c a IH]; [exact Hb|].
  rewrite append_cons. apply colon_free_cons in Ha as [Hc Ha].
  apply colon_free_cons. by split; [|apply IH].
Qed.

Lemma colon_free_digits (s : string) :
  forallb Py.isdigit (list_ascii_of_string s) = true -> colon_free s.
Proof.
  induction s as [|c s IH]; [intros _; apply colon_free_nil|].
  cbn [list_ascii_of_string forallb]. intros H.
  apply andb_true_iff in H as [Hc Hs].
  apply colon_free_cons. split; [|by apply IH].
  intros ->. discriminate Hc.
Qed.

Lemma colon_free_str_of_int (n : Z) : colon_free (Py.str_of_int n).
Proof.
  unfold Py.str_of_int. destruct (Z.to_int n) as [d | d];
    cbn [NilEmpty.string_of_int].
  - apply colon_free_digits, uint_chars_digits.
  - apply colon_free_cons. split; [discriminate|].
    apply colon_free_digits, uint_chars_digits.
Qed.

(** A text without a colon is one segment. *)
Lemma split_colon_free (s : string) : colon_free s -> Py.split ":" s = [s].
Proof.
  induction s as [|c s IH]; [reflexivity|].
  intros H. apply colon_free_cons in H as [Hc Hs].
  cbn [Py.split]. destruct (Ascii.eqb_spec c ":"); [contradiction|].
  by rewrite IH.
Qed.

(** A colon after a text without one ends the first segment. *)
Lemma split_app_colon (a t : string) :
  colon_free a -> Py.split ":" (a +:+ ":" +:+ t) = a :: Py.split ":" t.
Proof.
  induction a as [|c a IH]; [reflexivity|].
  intros H. apply colon_free_cons in H as [Hc Ha].
  rewrite append_cons. cbn [Py.split].
  destruct (Ascii.eqb_spec c ":"); [contradiction|].
  by rewrite IH.
Qed.

Lemma colon_free_reason (r : CarouselPageChangedReason.t) :
  colon_free (CarouselPageChangedReason.value r).
Proof. destruct r; repeat (apply colon_free_cons; split; [discriminate|]); constructor. Qed.

Lemma colon_free_curve (m : AnimateToCurve.t) :
  colon_free (AnimateToCurve.value m).
Proof. destruct m; repeat (apply colon_free_cons; split; [discriminate|]); constructor. Qed.

Lemma reason_of_value (r : CarouselPageChangedReason.t) :
  reason_of_token (CarouselPageChangedReason.value r) = r.
Proof. by destruct r. Qed.

Lemma append_colon_nonempty (a t : string) : a +:+ ":" +:+ t <> "".
Proof. destruct a; discriminate. Qed.

End Segments.

(** ** The store after construction *)

Section Construction.

Implicit Types (attrs : gmap string (pyval * bool)) (a : CarouselArgs.t)
  (calls : list (string * pyval)).

Lemma init_attrs a :
  Control._Control__attrs (Carousel.base (Carousel.__init__ a))
  = set_attrs (constructor_calls a) ∅.
Proof.
  unfold constructor_calls, set_attrs.
  cbn [map fold_left Opt.in_constructor_order Opt.key Opt.arg
       Opt.stored_form fst snd].
  reflexivity.
Qed.

(** The first assignment under a key stores the value, marked dirty, and
    stores nothing for [None]. *)
Lemma set_attr_internal_fresh (name : string) (v : pyval) attrs :
  attrs !! Py.lower name = None ->
  Control._set_attr_internal name v true attrs !! Py.lower name = first_entry v.
Proof.
  intros H. unfold Control._set_attr_internal. rewrite H.
  destruct v; cbn [first_entry]; [exact H | by rewrite lookup_insert_eq ..].
Qed.

Lemma set_attrs_other calls attrs (k : string) :
  Forall (fun kv => k <> Py.lower kv.1) calls ->
  set_attrs calls attrs !! k = attrs !! k.
Proof.
  revert attrs. induction calls as [|[k0 v0] calls IH]; intros attrs H; [done|].
  inversion_clear H as [|? ? Hk Hrest].
  change (set_attrs ((k0, v0) :: calls) attrs)
    with (set_attrs calls (Control._set_attr_internal k0 v0 true attrs)).
  rewrite IH by exact Hrest. by apply set_attr_internal_other.
Qed.

(** Calls under pairwise different keys, on a store that has none of the
    keys: each key ends up with what its call assigned. *)
Lemma set_attrs_lookup calls attrs (name : string) (v : pyval) :
  NoDup (map (fun kv => Py.lower kv.1) calls) ->
  Forall (fun kv => attrs !! Py.lower kv.1 = None) calls ->
  In (name, v) calls ->
  set_attrs calls attrs !! Py.lower name = first_entry v.
Proof.
  revert attrs. induction calls as [|[k0 v0] calls IH]; intros attrs Hdup Hnone Hin;
    [destruct Hin|].
  cbn [map fst] in Hdup. apply NoDup_cons in Hdup as [Hk0 Hdup].
  inversion_clear Hnone as [|? ? Hnone0 Hnone'].
  change (set_attrs ((k0, v0) :: calls) attrs)
    with (set_attrs calls (Control._set_attr_internal k0 v0 true attrs)).
  destruct Hin as [[= -> ->] | Hin].
  - rewrite set_attrs_other; [by apply set_attr_internal_fresh|].
    apply Forall_forall. intros kv Hkv Heq. apply Hk0.
    rewrite Heq. apply list_elem_of_In, (in_map (fun kv => Py.lower kv.1)).
    by apply list_elem_of_In.
  - apply IH; [exact Hdup | | exact Hin].
    rewrite Forall_forall in Hnone'. apply Forall_forall. intros kv Hkv.
    rewrite set_attr_internal_other; [by apply Hnone'|].
    intros Heq. apply Hk0. rewrite <- Heq.
    apply list_elem_of_In, (in_map (fun kv => Py.lower kv.1)).
    by apply list_elem_of_In.
Qed.

Lemma constructor_keys a :
  map (fun kv => Py.lower kv.1) (constructor_calls a)
  = map Py.lower
      ("visible" :: "disabled" :: map Opt.key Opt.in_constructor_order).
Proof. reflexivity. Qed.

Lemma constructor_keys_nodup a :
  NoDup (map (fun kv => Py.lower kv.1) (constructor_calls a)).
Proof.
  rewrite constructor_keys.
  apply (bool_decide_unpack _). vm_compute. reflexivity.
Qed.

Lemma constructor_calls_option a (o : Opt.t) :
  In (Opt.key o, Opt.stored_form o (Opt.arg o a)) (constructor_calls a).
Proof.
  unfold constructor_calls. right. right.
  apply (in_map (fun o => (Opt.key o, Opt.stored_form o (Opt.arg o a)))).
  destruct o; cbn [Opt.in_constructor_order In];
    repeat (first [left; reflexivity | right]).
Qed.

(** The constructor writes no command. *)
Lemma init_command a : command (Carousel.__init__ a) = Ok VNone.
Proof.
  unfold command, Carousel._get_attr. apply get_attr_unset.
  rewrite init_attrs, set_attrs_other; [apply lookup_empty|].
  rewrite Forall_forall. intros kv Hkv Heq.
  assert (Hin : In (Py.lower "__animateTo")
                  (map (fun kv => Py.lower kv.1) (constructor_calls a))).
  { rewrite Heq. apply (in_map (fun kv => Py.lower kv.1)).
    by apply list_elem_of_In. }
  rewrite constructor_keys in Hin.
  cbn [map Opt.in_constructor_order Opt.key In] in Hin.
  repeat (destruct Hin as [Hin | Hin]; [discriminate Hin|]). destruct Hin.
Qed.

End Construction.

(** ** Payloads and commands as text *)

Section Text.

Implicit Types (self : Carousel.t) (c : nav).

(** The payload [str(index) + ":" + reason.value] translates back to
    that index and reason, for every integer and every member; the event
    keeps its target, name and data. *)
Theorem change_payload_round_trip (target name : string) (index : Z)
    (reason : CarouselPageChangedReason.t) :
  let e := {| ControlEvent.target := target; ControlEvent.name := name;
              ControlEvent.data := Some (change_payload index reason) |} in
  CarouselChangeEvent.__init__ e
  = Ok {| CarouselChangeEvent.event := e;
          CarouselChangeEvent.index := index;
          CarouselChangeEvent.reason := reason |}.
Proof.
  cbv zeta. unfold CarouselChangeEvent.__init__.
  rewrite (truthy_data_present
             {| ControlEvent.target := target; ControlEvent.name := name;
                ControlEvent.data := Some (change_payload index reason) |}
             (change_payload index reason) eq_refl
             (append_colon_nonempty _ _)).
  cbv zeta. unfold change_payload.
  rewrite (split_app_colon _ _ (colon_free_str_of_int index)).
  rewrite (split_colon_free _ (colon_free_reason reason)).
  rewrite getitem_0. cbn [bind]. rewrite int_of_str_of_int, getitem_1.
  cbn [bind]. rewrite try_reason_of_value, reason_of_value. reflexivity.
Qed.

(** [next_page] and [previous_page] write [__next] and [__prev], the
    duration, the curve and the token; a curve that is a [str] is written
    as it is, a member as its wire string. *)
Theorem next_previous_page_command self (duration : Z) (curve : curve_arg) :
  command (Carousel.next_page duration curve self).2
  = Ok (VStr ("__next:" +:+ Py.str_of_int duration +:+ ":"
              +:+ Carousel.curve_id curve +:+ ":"
              +:+ Py.str_of_int (Carousel._Carousel__cmd_counter self + 1)))
  /\ command (Carousel.previous_page duration curve self).2
     = Ok (VStr ("__prev:" +:+ Py.str_of_int duration +:+ ":"
                 +:+ Carousel.curve_id curve +:+ ":"
                 +:+ Py.str_of_int (Carousel._Carousel__cmd_counter self + 1)))
  /\ (forall m, Carousel.curve_id (Curve m) = AnimateToCurve.value m)
  /\ (forall s, Carousel.curve_id (CurveStr s) = s).
Proof.
  destruct (call_nav_step (NextPage duration curve) self) as [Hn _].
  destruct (call_nav_step (PreviousPage duration curve) self) as [Hp _].
  cbn [call_nav command_head] in Hn, Hp.
  rewrite !append_assoc_r in Hn, Hp. by repeat split.
Qed.

Lemma command_head_segments (index duration token : Z) (m : AnimateToCurve.t) :
  Py.split ":" (command_head (AnimateToPage index duration (Curve m))
                +:+ Py.str_of_int token)
  = [Py.str_of_int index; Py.str_of_int duration; AnimateToCurve.value m;
     Py.str_of_int token]
  /\ Py.split ":" (command_head (NextPage duration (Curve m))
                   +:+ Py.str_of_int token)
     = ["__next"; Py.str_of_int duration; AnimateToCurve.value m;
        Py.str_of_int token]
  /\ Py.split ":" (command_head (PreviousPage duration (Curve m))
                   +:+ Py.str_of_int token)
     = ["__prev"; Py.str_of_int duration; AnimateToCurve.value m;
        Py.str_of_int token]
  /\ Py.split ":" (command_head (JumpToPage index) +:+ Py.str_of_int token)
     = ["__jump"; Py.str_of_int index; "none"; Py.str_of_int token].
Proof.
  pose proof (colon_free_str_of_int index) as Hi.
  pose proof (colon_free_str_of_int duration) as Hd.
  pose proof (colon_free_str_of_int token) as Ht.
  pose proof (colon_free_curve m) as Hm.
  assert (Hs : forall w : string,
             w = "__next" \/ w = "__prev" \/ w = "__jump" \/ w = "none" ->
             colon_free w).
  { intros w [-> | [-> | [-> | ->]]];
      repeat (apply colon_free_cons; split; [discriminate|]); constructor. }
  cbn [command_head Carousel.curve_id]. rewrite !append_assoc_r.
  change ("__next:" +:+ ?x) with ("__next" +:+ ":" +:+ x).
  change ("__prev:" +:+ ?x) with ("__prev" +:+ ":" +:+ x).
  change ("__jump:" +:+ ?x) with ("__jump" +:+ ":" +:+ x).
  change (":none:" +:+ ?x) with (":" +:+ "none" +:+ ":" +:+ x).
  rewrite !split_app_colon, !split_colon_free by auto 6.
  by repeat split.
Qed.

(** The command a navigation method writes, called with a [curve]
    member, splits at its colons into exactly four segments: the target
    (the index, [__next], [__prev] or [__jump]), the duration (the index
    for a jump), the curve ([none] for a jump) and the token.  [int()]
    reads index, duration and token back and rejects the three sentinels,
    so the first segment tells the four commands apart. *)
Theorem command_segments self (index duration : Z) (m : AnimateToCurve.t) :
  let token := Py.str_of_int (Carousel._Carousel__cmd_counter self + 1) in
  let segments_of (r : result pyval) : list string :=
    match r with Ok (VStr text) => Py.split ":" text | _ => [] end in
  segments_of (command (Carousel.animate_to_page index duration (Curve m) self).2)
  = [Py.str_of_int index; Py.str_of_int duration; AnimateToCurve.value m; token]
  /\ segments_of (command (Carousel.next_page duration (Curve m) self).2)
     = ["__next"; Py.str_of_int duration; AnimateToCurve.value m; token]
  /\ segments_of (command (Carousel.previous_page duration (Curve m) self).2)
     = ["__prev"; Py.str_of_int duration; AnimateToCurve.value m; token]
  /\ segments_of (command (Carousel.jump_to_page index self).2)
     = ["__jump"; Py.str_of_int index; "none"; token]
  /\ (forall n, Py.int_of_str (Py.str_of_int n) = Ok n)
  /\ Py.int_of_str "__next" = Raise ValueError
  /\ Py.int_of_str "__prev" = Raise ValueError
  /\ Py.int_of_str "__jump" = Raise ValueError.
Proof.
  cbv zeta.
  destruct (command_head_segments index duration
              (Carousel._Carousel__cmd_counter self + 1) m)
    as (Ha & Hn & Hp & Hj).
  destruct (call_nav_step (AnimateToPage index duration (Curve m)) self) as [Ca _].
  destruct (call_nav_step (NextPage duration (Curve m)) self) as [Cn _].
  destruct (call_nav_step (PreviousPage duration (Curve m)) self) as [Cp _].
  destruct (call_nav_step (JumpToPage index) self) as [Cj _].
  cbn [call_nav] in Ca, Cn, Cp, Cj.
  rewrite Ca, Cn, Cp, Cj.
  repeat split; try assumption. apply int_of_str_of_int.
Qed.

(** *** Tokens *)

Lemma split_first (sep : ascii) (s : string) :
  exists seg segs, Py.split sep s = seg :: segs.
Proof.
  destruct s as [|c s]; cbn [Py.split]; [eauto|].
  destruct (Ascii.eqb c sep); [eauto|].
  destruct (Py.split sep s); eauto.
Qed.

(** Splitting at a colon splits the list of segments. *)
Lemma split_app (h t : string) :
  Py.split ":" (h +:+ ":" +:+ t) = (Py.split ":" h ++ Py.split ":" t)%list.
Proof.
  induction h as [|x h IH]; [reflexivity|].
  rewrite append_cons. cbn [Py.split]. rewrite IH.
  destruct (Ascii.eqb x ":"); [reflexivity|].
  destruct (split_first ":" h) as (seg & segs & ->). reflexivity.
Qed.

Lemma last_app_cons {A} (l : list A) (x : A) (l' : list A) (d : A) :
  List.last (l ++ x :: l') d = List.last (x :: l') d.
Proof.
  induction l as [|y l IH]; [reflexivity|].
  change ((y :: l) ++ x :: l')%list with (y :: (l ++ x :: l'))%list.
  rewrite <- IH. destruct l; reflexivity.
Qed.

Lemma last_segment_app (h t : string) :
  last_segment (h +:+ ":" +:+ t) = last_segment t.
Proof.
  unfold last_segment. rewrite split_app.
  destruct (split_first ":" t) as (seg & segs & ->). apply last_app_cons.
Qed.

(** The token of a command is what follows its last colon, whatever the
    curve string holds. *)
Lemma last_segment_command c (k : Z) :
  last_segment (command_head c +:+ Py.str_of_int k) = Py.str_of_int k.
Proof.
  assert (Hk : last_segment (Py.str_of_int k) = Py.str_of_int k).
  { unfold last_segment.
    by rewrite (split_colon_free _ (colon_free_str_of_int k)). }
  destruct c; cbn [command_head]; rewrite !append_assoc_r;
    try change ("__next:" +:+ ?x) with ("__next" +:+ ":" +:+ x);
    try change ("__prev:" +:+ ?x) with ("__prev" +:+ ":" +:+ x);
    try change ("__jump:" +:+ ?x) with ("__jump" +:+ ":" +:+ x);
    try change (":none:" +:+ ?x) with (":" +:+ "none" +:+ ":" +:+ x);
    rewrite !last_segment_app; exact Hk.
Qed.

Lemma step_command (x : op) self :
  match x with Call _ => True | _ => command (step x self) = command self end.
Proof.
  destruct x as [o value | | | | |];
    first [exact I | apply assign_keeps_command | reflexivity].
Qed.

Lemma step_command_in_step (x : op) self :
  command_in_step self -> command_in_step (step x self).
Proof.
  intros [Hpos Hcmd]. unfold command_in_step.
  pose proof (step_counter x self) as Hctr.
  pose proof (step_command x self) as Hkeep.
  destruct x as [o value | value | handler | handler | c | page];
    cbn [calls] in Hctr; rewrite ?Z.add_0_r in Hctr;
    try (rewrite Hctr, Hkeep; by split).
  cbn [step] in *. destruct (call_nav_step c self) as [Hnew _].
  rewrite Hctr. split; [lia|]. right.
  exists c, (Carousel._Carousel__cmd_counter self + 1). split; [exact Hnew | lia].
Qed.

Lemma run_command_in_step (ops : list op) self :
  command_in_step self -> command_in_step (run ops self).
Proof.
  revert self. induction ops as [|x ops IH]; intros self H; [exact H|].
  apply IH, step_command_in_step, H.
Qed.

(** No navigation call, at any point of the life of a carousel, writes
    the command that is already stored: before the call there is no
    command, or one with a token between 1 and the number of calls so
    far, and the call writes the next token.  So a flush after the call
    always has a changed command attribute to send. *)
Theorem every_call_changes_command (a : CarouselArgs.t) (ops : list op) c :
  let before := run ops (Carousel.__init__ a) in
  command_in_step before
  /\ Carousel._Carousel__cmd_counter before = Z.of_nat (calls ops)
  /\ command (call_nav c before).2 <> command before.
Proof.
  cbv zeta.
  assert (Hinit : command_in_step (Carousel.__init__ a)).
  { split; [by rewrite init_counter | left; apply init_command]. }
  pose proof (run_command_in_step ops _ Hinit) as Hinv.
  pose proof (run_counter ops (Carousel.__init__ a)) as Hctr.
  rewrite init_counter, Z.add_0_l in Hctr.
  split; [exact Hinv|]. split; [exact Hctr|].
  destruct (call_nav_step c (run ops (Carousel.__init__ a))) as [Hnew _].
  destruct Hinv as [_ [Hnone | (c0 & k & Hold & Hk)]].
  - rewrite Hnew, Hnone. discriminate.
  - rewrite Hnew, Hold. intros E.
    assert (Et : command_head c
                 +:+ Py.str_of_int
                       (Carousel._Carousel__cmd_counter
                          (run ops (Carousel.__init__ a)) + 1)
                 = command_head c0 +:+ Py.str_of_int k).
    { exact (f_equal (fun r => match r with Ok (VStr t) => t | _ => "" end) E). }
    apply (f_equal last_segment) in Et.
    rewrite !last_segment_command in Et. apply str_of_int_inj in Et. lia.
Qed.

(** A navigation call on a carousel that is on no page raises
    [AssertionError] from [update], after it has advanced the counter and
    written the command; on a page it returns normally. *)
Theorem call_needs_page c self :
  (Control._Control__page (Carousel.base self) = None ->
   (call_nav c self).1 = Raise AssertionError
   /\ Carousel._Carousel__cmd_counter (call_nav c self).2
      = Carousel._Carousel__cmd_counter self + 1
   /\ command (call_nav c self).2
      = Ok (VStr (command_head c
                  +:+ Py.str_of_int (Carousel._Carousel__cmd_counter self + 1))))
  /\ (forall page, Control._Control__page (Carousel.base self) = Some page ->
      (call_nav c self).1 = Ok tt).
Proof.
  destruct (call_nav_step c self) as [Hcmd Hctr].
  split.
  - intros Hpage. split; [|by split].
    destruct c; cbn [call_nav];
      unfold Carousel.animate_to_page, Carousel.next_page,
        Carousel.previous_page, Carousel.jump_to_page, Carousel._next_cmd,
        Carousel.update, Control.update;
      cbv zeta; cbn [Carousel.base Carousel._set_attr Carousel.assign_base
                     Carousel.assign_cmd_counter Control._set_attr
                     Control.with_attrs Control._Control__page];
      by rewrite Hpage.
  - intros page Hpage.
    destruct c; cbn [call_nav];
      unfold Carousel.animate_to_page, Carousel.next_page,
        Carousel.previous_page, Carousel.jump_to_page, Carousel._next_cmd,
        Carousel.update, Control.update;
      cbv zeta; cbn [Carousel.base Carousel._set_attr Carousel.assign_base
                     Carousel.assign_cmd_counter Control._set_attr
                     Control.with_attrs Control._Control__page];
      by rewrite Hpage.
Qed.

(** A new carousel is on no page: its first navigation call raises. *)
Lemma call_needs_page_witness :
  (call_nav (NextPage 300 (Curve AnimateToCurve.FAST_OUT_SLOW_IN))
     (Carousel.__init__ (CarouselArgs.defaults (Some [])))).1
  = Raise AssertionError.
Proof.
  apply (proj1 (call_needs_page
                  (NextPage 300 (Curve AnimateToCurve.FAST_OUT_SLOW_IN))
                  (Carousel.__init__ (CarouselArgs.defaults (Some []))))).
  reflexivity.
Defined.

End Text.

(** ** Options *)

Section Options.

Implicit Types (self : Carousel.t) (o : Opt.t) (attrs : gmap string (pyval * bool)).

(** What a setter does to the store: one [_set_attr] under its key. *)
Lemma attrs_set o (value : pyval) self :
  Control._Control__attrs (Carousel.base (Opt.set o value self))
  = Control._set_attr_internal (Opt.key o) (Opt.stored_form o value) true
      (Control._Control__attrs (Carousel.base self)).
Proof. destruct o; reflexivity. Qed.

(** No two options share a key of the store. *)
Lemma key_inj o o' : Py.lower (Opt.key o) = Py.lower (Opt.key o') -> o = o'.
Proof. destruct o, o'; first [reflexivity | discriminate]. Qed.

Lemma stored_set_other o o' (value : pyval) self :
  o <> o' -> Opt.stored o' (Opt.set o value self) = Opt.stored o' self.
Proof.
  intros Hne. unfold Opt.stored. rewrite attrs_set.
  apply set_attr_internal_other. intros E. apply Hne. symmetry. by apply key_inj.
Qed.

Lemma private_set_other o o' (value : pyval) self :
  o <> o' -> private_value o' (Opt.set o value self) = private_value o' self.
Proof. intros Hne. destruct o, o'; first [reflexivity | contradiction]. Qed.

(** [_get_attr] looks at the value stored under the key only. *)
Lemma get_attr_ext (c c' : Control.t) (name : string) (def_value : pyval)
    (data_type : string) :
  fst <$> (Control._Control__attrs c !! Py.lower name)
  = fst <$> (Control._Control__attrs c' !! Py.lower name) ->
  Control._get_attr c name def_value data_type
  = Control._get_attr c' name def_value data_type.
Proof.
  intros H. unfold Control._get_attr.
  destruct (Control._Control__attrs c !! Py.lower name) as [[v d]|],
    (Control._Control__attrs c' !! Py.lower name) as [[v' d']|];
    cbn in H; try discriminate H; [|reflexivity].
  injection H as ->. reflexivity.
Qed.

(** A getter looks at the value stored under its key, or at its private
    attribute, and at nothing else. *)
Lemma get_depends o self self' :
  fst <$> Opt.stored o self = fst <$> Opt.stored o self' ->
  private_value o self = private_value o self' ->
  Opt.get o self = Opt.get o self'.
Proof.
  intros Hs Hp.
  destruct o; cbn [Opt.get private_value] in *;
    first [ exact (f_equal Ok Hp)
          | apply get_attr_ext; exact Hs ].
Qed.

(** Assigning an option changes what no other option reads, and leaves
    the child list, the handlers, the counter and the command alone. *)
Theorem assign_changes_one_option o o' (value : pyval) self :
  o <> o' ->
  Opt.get o' (Opt.set o value self) = Opt.get o' self
  /\ Carousel.controls (Opt.set o value self) = Carousel.controls self
  /\ Carousel.on_change (Opt.set o value self) = Carousel.on_change self
  /\ Carousel.on_scrolled (Opt.set o value self) = Carousel.on_scrolled self
  /\ Carousel._Carousel__cmd_counter (Opt.set o value self)
     = Carousel._Carousel__cmd_counter self
  /\ command (Opt.set o value self) = command self.
Proof.
  intros Hne. split.
  - apply get_depends;
      [by rewrite stored_set_other | by apply private_set_other].
  - repeat split; try (destruct o; reflexivity). apply assign_keeps_command.
Qed.

(** Assigning [viewport_fraction] leaves [aspect_ratio] as it reads. *)
Lemma assign_changes_one_option_witness :
  Opt.get Opt.aspect_ratio
    (Opt.set Opt.viewport_fraction (VFloat 0.5%float)
       (Carousel.__init__ (CarouselArgs.defaults (Some []))))
  = Opt.get Opt.aspect_ratio
      (Carousel.__init__ (CarouselArgs.defaults (Some []))).
Proof.
  apply (proj1 (assign_changes_one_option Opt.viewport_fraction
                  Opt.aspect_ratio (VFloat 0.5%float)
                  (Carousel.__init__ (CarouselArgs.defaults (Some [])))
                  ltac:(discriminate))).
Defined.

(** A navigation call changes what no option reads, and leaves the
    child list and the handlers alone. *)
Theorem call_keeps_options (c : nav) o self :
  Opt.get o (call_nav c self).2 = Opt.get o self
  /\ Carousel.controls (call_nav c self).2 = Carousel.controls self
  /\ Carousel.on_change (call_nav c self).2 = Carousel.on_change self
  /\ Carousel.on_scrolled (call_nav c self).2 = Carousel.on_scrolled self.
Proof.
  destruct (call_nav_frame c self) as (_ & Hc & Hs & Hl).
  split; [|by repeat split].
  assert (Hshape : exists text,
    (call_nav c self).2
    = (Carousel.update
         (Carousel._set_attr "__animateTo" (VStr text)
            (Carousel.assign_cmd_counter
               (Carousel._Carousel__cmd_counter self + 1) self))).2).
  { destruct c; eexists; reflexivity. }
  destruct Hshape as [text ->].
  apply get_depends.
  - unfold Opt.stored, Carousel.update.
    pose proof (update_value
                  (Carousel.base
                     (Carousel._set_attr "__animateTo" (VStr text)
                        (Carousel.assign_cmd_counter
                           (Carousel._Carousel__cmd_counter self + 1) self)))
                  (Py.lower (Opt.key o))) as Hupd.
    destruct (Control.update _) as [r b]. cbn [snd] in *.
    cbn [Carousel.base Carousel.assign_base]. rewrite Hupd.
    cbn [Carousel.base Carousel._set_attr Carousel.assign_base
         Carousel.assign_cmd_counter Control._set_attr Control.with_attrs
         Control._Control__attrs].
    f_equal. apply set_attr_internal_other. destruct o; discriminate.
  - unfold Carousel.update. destruct (Control.update _) as [r b].
    destruct o; reflexivity.
Qed.

(** Assigning again what was assigned is no change: the second
    assignment leaves the instance exactly as the first left it. *)
Lemma set_attr_internal_twice (name : string) (v : pyval) attrs :
  Control._set_attr_internal name v true
    (Control._set_attr_internal name v true attrs)
  = Control._set_attr_internal name v true attrs.
Proof.
  assert (Hins : forall w : pyval, w <> VNone ->
            Control._set_attr_internal name w true
              (<[Py.lower name := (w, true)]> attrs)
            = <[Py.lower name := (w, true)]> attrs).
  { intros w Hw. unfold Control._set_attr_internal.
    rewrite lookup_insert_eq. cbn [fst].
    destruct w; try contradiction;
      (destruct (PyVal.eqb _ _); cbn [negb];
       [reflexivity | by rewrite insert_insert_eq]). }
  assert (Hempty : Control._set_attr_internal name VNone true
                     (<[Py.lower name := (VStr "", true)]> attrs)
                   = <[Py.lower name := (VStr "", true)]> attrs).
  { unfold Control._set_attr_internal. by rewrite lookup_insert_eq. }
  assert (Hkeep : forall orig d,
            attrs !! Py.lower name = Some (orig, d) ->
            PyVal.eqb orig match v with VNone => VStr "" | _ => v end = true ->
            Control._set_attr_internal name v true attrs = attrs).
  { intros orig d Hlook Heq. unfold Control._set_attr_internal.
    rewrite Hlook. cbn [fst]. rewrite Heq. by destruct v. }
  destruct (attrs !! Py.lower name) as [[orig d]|] eqn:Hlook.
  - destruct (PyVal.eqb orig match v with VNone => VStr "" | _ => v end) eqn:Heq.
    + by rewrite !(Hkeep orig d eq_refl Heq).
    + assert (Hfirst : Control._set_attr_internal name v true attrs
                       = <[Py.lower name :=
                             (match v with VNone => VStr "" | _ => v end, true)]> attrs).
      { unfold Control._set_attr_internal. rewrite Hlook. cbn [fst].
        rewrite Heq. by destruct v. }
      rewrite Hfirst. destruct v; first [exact Hempty | by apply Hins].
  - assert (Hfirst : Control._set_attr_internal name v true attrs
                     = match v with
                       | VNone => attrs
                       | _ => <[Py.lower name := (v, true)]> attrs
                       end).
    { unfold Control._set_attr_internal. rewrite Hlook. by destruct v. }
    rewrite Hfirst. destruct v; [exact Hfirst | by apply Hins ..].
Qed.

(** Assigning a value to an option twice leaves the carousel exactly as
    assigning it once: store, dirty marks and private attributes. *)
Theorem assign_twice_is_assign_once o (value : pyval) self :
  Opt.set o value (Opt.set o value self) = Opt.set o value self.
Proof.
  assert (Hbase : forall (k : string) (w : pyval) (s : Carousel.t),
             Carousel._set_attr k w (Carousel._set_attr k w s)
             = Carousel._set_attr k w s).
  { intros k w s. unfold Carousel._set_attr, Control._set_attr, Control.with_attrs.
    cbn [Carousel.base Carousel.assign_base Control._Control__attrs
         Control._Control__event_handlers Control._Control__page].
    rewrite set_attr_internal_twice. reflexivity. }
  destruct o; cbn [Opt.set]; first [apply Hbase | idtac].
  - exact (Hbase "autoPlayCurve" _ (Carousel.assign_auto_play_curve value self)).
  - exact (Hbase "enlargeStrategy" _ (Carousel.assign_enlarge_strategy value self)).
  - exact (Hbase "scrollDirection" _ (Carousel.assign_scroll_direction value self)).
  - exact (Hbase "clipBehavior" _ (Carousel.assign_clip_behavior value self)).
Qed.

(** A [bool], [int] or [float] assigned to a store-backed option reads
    back as itself, or as the equal value the store held before; any
    value assigned to an enum option reads back as itself. *)
Theorem native_value_reads_back o self :
  (forall b, reads_back o (VBool b) self)
  /\ (forall n, reads_back o (VInt n) self)
  /\ (forall x, reads_back o (VFloat x) self)
  /\ (forall v, Opt.is_enum o = true -> Opt.get o (Opt.set o v self) = Ok v).
Proof.
  assert (H : forall v, is_native v = true -> reads_back o v self).
  { intros v Hv. unfold reads_back.
    destruct o; cbn [Opt.get Opt.set];
      first [ apply get_set_native; by destruct v
            | eexists; split; [reflexivity | by left] ]. }
  repeat split; try (intros; by apply H).
  intros v Henum. destruct o; try discriminate Henum; reflexivity.
Qed.

(** [clip_behavior] reads back the member assigned to it. *)
Lemma native_value_reads_back_witness :
  Opt.get Opt.clip_behavior
    (Opt.set Opt.clip_behavior (VClipBehavior ClipBehavior.ANTI_ALIAS)
       (Carousel.__init__ (CarouselArgs.defaults (Some []))))
  = Ok (VClipBehavior ClipBehavior.ANTI_ALIAS).
Proof.
  apply (proj2 (proj2 (proj2 (native_value_reads_back Opt.clip_behavior
                                (Carousel.__init__
                                   (CarouselArgs.defaults (Some []))))))).
  reflexivity.
Defined.

(** An enum setter keeps the member for its getter and stores the
    member's wire string for the host. *)
Theorem enum_member_is_stored_as_wire_string self :
  (forall m, let s := Carousel.set_auto_play_curve (VAnimateToCurve m) self in
      Carousel.auto_play_curve s = VAnimateToCurve m
      /\ fst <$> Opt.stored Opt.auto_play_curve s
         = Some (VStr (AnimateToCurve.value m)))
  /\ (forall m, let s := Carousel.set_enlarge_strategy (VEnlargeStrategy m) self in
      Carousel.enlarge_strategy s = VEnlargeStrategy m
      /\ fst <$> Opt.stored Opt.enlarge_strategy s
         = Some (VStr (EnlargeStrategy.value m)))
  /\ (forall m, let s := Carousel.set_scroll_direction (VScrollDirection m) self in
      Carousel.scroll_direction s = VScrollDirection m
      /\ fst <$> Opt.stored Opt.scroll_direction s
         = Some (VStr (ScrollDirection.value m)))
  /\ (forall m, let s := Carousel.set_clip_behavior (VClipBehavior m) self in
      Carousel.clip_behavior s = VClipBehavior m
      /\ fst <$> Opt.stored Opt.clip_behavior s
         = Some (VStr (ClipBehavior.value m))).
Proof.
  repeat split; apply set_attr_internal_str.
Qed.

Lemma get_attr_float_of_str (c : Control.t) (name s : string) (def_value : pyval) :
  fst <$> (Control._Control__attrs c !! Py.lower name) = Some (VStr s) ->
  Control._get_attr c name def_value "float"
  = (let* x := Py.float_of_str s in Ok (VFloat x)).
Proof.
  intros H. rewrite (get_attr_value _ _ _ _ _ H).
  unfold Control._get_attr. cbn [Control._Control__attrs].
  by rewrite lookup_singleton_eq.
Qed.

(** Assigning [None] to a store-backed option that has an entry stores
    the empty string: after that a [bool] getter returns [False], and an
    [int] or [float] getter raises [ValueError]. *)
Theorem none_after_value_reads_empty_string o self :
  Opt.is_enum o = false -> Opt.stored o self <> None ->
  fst <$> Opt.stored o (Opt.set o VNone self) = Some (VStr "")
  /\ Opt.get o (Opt.set o VNone self)
     = if String.eqb (Opt.data_type o) "bool" then Ok (VBool false)
       else Raise ValueError.
Proof.
  intros Henum Hset.
  assert (Hstored : fst <$> Opt.stored o (Opt.set o VNone self) = Some (VStr "")).
  { unfold Opt.stored in *. rewrite attrs_set.
    replace (Opt.stored_form o VNone) with VNone by (by destruct o).
    unfold Control._set_attr_internal.
    destruct (Control._Control__attrs (Carousel.base self) !! Py.lower (Opt.key o))
      as [[orig d]|] eqn:Hlook; [|contradiction].
    cbn [fst]. destruct (PyVal.eqb orig (VStr "")) eqn:Heq; cbn [negb].
    - apply eqb_VStr in Heq. subst orig. by rewrite Hlook.
    - by rewrite lookup_insert_eq. }
  split; [exact Hstored|].
  unfold Opt.stored in Hstored.
  destruct o; try discriminate Henum; cbn [Opt.get Opt.data_type];
    (etrans;
     [ first [ apply get_attr_bool_of_str; exact Hstored
             | apply get_attr_int_of_str; exact Hstored
             | apply get_attr_float_of_str; exact Hstored ]
     | reflexivity ]).
Qed.

(** After [auto_play_interval = None] on a new carousel the getter
    raises. *)
Lemma none_after_value_reads_empty_string_witness :
  Opt.get Opt.auto_play_interval
    (Opt.set Opt.auto_play_interval VNone
       (Carousel.__init__ (CarouselArgs.defaults (Some []))))
  = if String.eqb (Opt.data_type Opt.auto_play_interval) "bool"
    then Ok (VBool false) else Raise ValueError.
Proof.
  apply (proj2 (none_after_value_reads_empty_string Opt.auto_play_interval
                  (Carousel.__init__ (CarouselArgs.defaults (Some [])))
                  eq_refl
                  ltac:(vm_compute; discriminate))).
Defined.

End Options.

(** ** The constructed instance *)

Section Constructed.

Implicit Types (a : CarouselArgs.t) (o : Opt.t).

(** The entry of each option after construction. *)
Lemma init_stored a o :
  Opt.stored o (Carousel.__init__ a)
  = first_entry (Opt.stored_form o (Opt.arg o a)).
Proof.
  unfold Opt.stored. rewrite init_attrs.
  apply set_attrs_lookup.
  - apply constructor_keys_nodup.
  - apply Forall_forall. intros kv _. apply lookup_empty.
  - apply constructor_calls_option.
Qed.

(** After construction the store holds, under the key of each option,
    the argument passed for it, marked dirty: a member of the option's
    enum class as its wire string, and no entry where the argument is
    [None].  There is no command yet and the carousel is on no page. *)
Theorem constructor_store a o :
  Opt.stored o (Carousel.__init__ a)
  = first_entry (Opt.stored_form o (Opt.arg o a))
  /\ command (Carousel.__init__ a) = Ok VNone
  /\ Control._Control__page (Carousel.base (Carousel.__init__ a)) = None.
Proof.
  split; [apply init_stored | split; [apply init_command | reflexivity]].
Qed.

(** The getter of a store-backed option is one [_get_attr]. *)
Lemma get_unfold o (self : Carousel.t) :
  Opt.is_enum o = false ->
  Opt.get o self
  = Control._get_attr (Carousel.base self) (Opt.key o) (Opt.def_value o)
      (Opt.data_type o).
Proof. intros H. destruct o; try discriminate H; reflexivity. Qed.

(** The getter of an enum option returns its private attribute. *)
Lemma get_private o (self : Carousel.t) :
  Opt.is_enum o = true -> Opt.get o self = Ok (private_value o self).
Proof. intros H. destruct o; try discriminate H; reflexivity. Qed.

Lemma stored_form_plain o (v : pyval) :
  Opt.is_enum o = false -> Opt.stored_form o v = v.
Proof. intros H. destruct o; try discriminate H; reflexivity. Qed.

(** The defaults of the getters are the defaults of the interface table. *)
Lemma def_value_documented o :
  Opt.is_enum o = false -> Opt.def_value o = Opt.documented_default o.
Proof. intros H. destruct o; try discriminate H; reflexivity. Qed.

Lemma get_attr_native (c : Control.t) (name : string) (v def_value : pyval)
    (data_type : string) :
  Control._Control__attrs c !! Py.lower name = Some (v, true) ->
  is_native v = true ->
  Control._get_attr c name def_value data_type = Ok v.
Proof.
  intros H Hv. unfold Control._get_attr. rewrite H. cbn [fst].
  by destruct v.
Qed.

(** What the getter of a store-backed option returns, by the entry of
    the store under its key. *)
Lemma get_of_stored o (self : Carousel.t) (v : pyval) :
  Opt.is_enum o = false ->
  Opt.stored o self = first_entry v ->
  (is_native v = true -> Opt.get o self = Ok v)
  /\ (v = VNone -> Opt.get o self = Ok (Opt.def_value o)).
Proof.
  intros Henum Hstored. rewrite (get_unfold o _ Henum).
  split.
  - intros Hnative. apply get_attr_native; [|exact Hnative].
    etrans; [exact Hstored|]. by destruct v.
  - intros ->. apply get_attr_unset. exact Hstored.
Qed.

(** A new carousel reads each option as it was passed: an enum option
    as the argument itself, another option as the [bool], [int] or
    [float] passed, and as the default of its getter where [None] was
    passed.  The child list and the two handlers are the arguments. *)
Theorem constructor_reads_arguments a o :
  (Opt.is_enum o = true -> Opt.get o (Carousel.__init__ a) = Ok (Opt.arg o a))
  /\ (Opt.is_enum o = false -> is_native (Opt.arg o a) = true ->
      Opt.get o (Carousel.__init__ a) = Ok (Opt.arg o a))
  /\ (Opt.is_enum o = false -> Opt.arg o a = VNone ->
      Opt.get o (Carousel.__init__ a) = Ok (Opt.def_value o))
  /\ Carousel.controls (Carousel.__init__ a)
     = Some (list_or_empty (CarouselArgs.controls a))
  /\ Carousel.on_change (Carousel.__init__ a) = CarouselArgs.on_change a
  /\ Carousel.on_scrolled (Carousel.__init__ a) = CarouselArgs.on_scrolled a.
Proof.
  pose proof (init_stored a o) as Hstored.
  split; [|split; [|split]].
  - intros Henum. rewrite (get_private o _ Henum). f_equal.
    destruct o; try discriminate Henum; reflexivity.
  - intros Henum.
    rewrite (stored_form_plain o _ Henum) in Hstored.
    exact (proj1 (get_of_stored o _ _ Henum Hstored)).
  - intros Henum.
    rewrite (stored_form_plain o _ Henum) in Hstored.
    exact (proj2 (get_of_stored o _ _ Henum Hstored)).
  - destruct (init_handlers a) as (_ & Hc & Hs).
    split; [apply init_controls | by split].
Qed.

(** A carousel constructed with the defaults reads [auto_play] as the
    default of the signature. *)
Lemma constructor_reads_arguments_witness :
  Opt.get Opt.auto_play (Carousel.__init__ (CarouselArgs.defaults (Some [])))
  = Ok (Opt.arg Opt.auto_play (CarouselArgs.defaults (Some []))).
Proof.
  apply (proj1 (proj2 (constructor_reads_arguments
                         (CarouselArgs.defaults (Some [])) Opt.auto_play)));
    reflexivity.
Defined.

End Constructed.
